(** * Monad MCP server: the contract analysis tool

    A shallow embedding of the [get-contract-source] and [get-erc20-balance]
    tool handlers of the server's [index.ts], with the properties of the
    contract introspection and classification logic stated over it.

    The handlers are asynchronous JavaScript: each one awaits promises
    returned by its collaborators (the chain client [publicClient] and the
    registry reached through [fetch]).  A promise is modelled by the effects
    issued when it was created together with the way it settles, if it does. *)

From Stdlib Require Import String Ascii List ZArith QArith Bool Lia DecimalString.
Import ListNotations.
Open Scope string_scope.
Open Scope list_scope.

Set Implicit Arguments.
Set Warnings "-register-all".

(* ================================================================== *)
(** ** Promises *)

Module Js.

(** What a thrown value says: [error instanceof Error ? error.message :
    String(error)]. *)
Definition Err := string.

(** How a promise ends: fulfilled with a value, rejected with an error, or
    never settled. *)
Inductive Outcome (A : Type) : Type :=
| Resolved (a : A)
| Rejected (e : Err)
| Pending.

Arguments Rejected {A} e.
Arguments Pending {A}.

Definition settled {A} (o : Outcome A) : bool :=
  match o with Pending => false | _ => true end.

Definition rejected {A} (o : Outcome A) : bool :=
  match o with Rejected _ => true | _ => false end.

Definition resolved {A} (o : Outcome A) : bool :=
  match o with Resolved _ => true | _ => false end.

(** A synchronous call: the value it returns, or what it throws. *)
Definition Sync (A : Type) : Type := (Err + A)%type.

(** JavaScript values read out of a parsed JSON body.  [JSON.parse] yields
    no [undefined], property access does. *)
Inductive JsVal : Type :=
| JUndefined
| JNull
| JBool (b : bool)
| JNum (q : Q)
| JStr (s : string)
| JArr (items : list JsVal)
| JObj (props : list (string * JsVal)).

(** Own property of a parsed object. *)
Fixpoint lookup (k : string) (props : list (string * JsVal)) : JsVal :=
  match props with
  | [] => JUndefined
  | (k', v) :: rest => if String.eqb k k' then v else lookup k rest
  end.

(** [ToBoolean]. *)
Definition truthy (v : JsVal) : bool :=
  match v with
  | JUndefined | JNull => false
  | JBool b => b
  | JNum q => negb (Qeq_bool q 0)
  | JStr s => negb (String.eqb s "")
  | JArr _ | JObj _ => true
  end.

(** [v === s] for a string literal [s]. *)
Definition strictEqStr (v : JsVal) (s : string) : bool :=
  match v with
  | JStr s' => String.eqb s' s
  | _ => false
  end.

End Js.

Import Js.

(* ================================================================== *)
(** ** Collaborators *)

(** Solidity types of the ABI fragments the handlers parse. *)
Inductive AbiType : Type := TString | TUint8 | TUint256 | TBool | TAddress | TBytes4.

(** One item of [parseAbi([...])]: [function name(inputs) view returns (output)]. *)
Record AbiFunction : Type := {
  fn_name : string;
  fn_inputs : list AbiType;
  fn_output : AbiType
}.

Definition Abi := list AbiFunction.

Inductive Arg : Type :=
| ArgAddress (a : string)
| ArgBytes4 (hex : string).

(** The JavaScript value viem decodes a return value of a Solidity type to:
    [string], [number] for [uint8], [bigint] for [uint256], [boolean]. *)
Definition decoded (t : AbiType) : Type :=
  match t with
  | TString | TAddress | TBytes4 => string
  | TUint8 | TUint256 => Z
  | TBool => bool
  end.

Fixpoint findFunction (abi : Abi) (functionName : string) : option AbiFunction :=
  match abi with
  | [] => None
  | f :: rest => if String.eqb (fn_name f) functionName then Some f else findFunction rest functionName
  end.

(** Type of the value [readContract({abi, functionName})] resolves to. *)
Definition Returns (abi : Abi) (functionName : string) : Type :=
  match findFunction abi functionName with
  | Some f => decoded (fn_output f)
  | None => unit
  end.

(** The observable effects of a handler, in the order they are issued. *)
Inductive Effect : Type :=
| Fetch (url : string)
| GetBytecode (address : string)
| GetBalance (address : string)
| ReadContract (address : string) (abi : Abi) (functionName : string) (args : list Arg)
| ConsoleLog (msg : string).

(** Response of [fetch]: the [ok] flag and the promise of [response.json()]. *)
Record HttpResponse : Type := {
  ok : bool;
  json : Outcome JsVal
}.

(** The network as one request sees it: how each call it can issue settles. *)
Record World : Type := {
  fetch : string -> Outcome HttpResponse;
  getBytecode : string -> Outcome (option string);
  getBalance : string -> Outcome Z;
  readContract : forall (address : string) (abi : Abi) (functionName : string)
                        (args : list Arg), Outcome (Returns abi functionName)
}.

(** The functions imported from viem that the handlers apply to data.
    [getAddress] throws on a string [isAddress] refuses; the handlers call
    it on checked strings only, so it is taken as total here.
    [formatUnits] pads the digits to [decimals] places and throws when no
    string can hold them; the decimals it is given are read from the chain,
    so it may throw.  [formatEther] is [formatUnits] at 18 places. *)
Record Viem : Type := {
  isAddress : string -> bool;
  getAddress : string -> string;
  formatEther : Z -> string;
  formatUnits : Z -> Z -> Sync string
}.

(* ================================================================== *)
(** ** The async monad *)

Module Async.

(** A started computation: the effects it has issued and its outcome. *)
Definition t (A : Type) : Type := (list Effect * Outcome A)%type.

Definition ret {A} (a : A) : t A := ([], Resolved a).

Definition throw {A} (e : Err) : t A := ([], Rejected e).

(** [const x = await m; k x] *)
Definition bind {A B} (m : t A) (k : A -> t B) : t B :=
  match snd m with
  | Resolved a => (fst m ++ fst (k a), snd (k a))
  | Rejected e => (fst m, Rejected e)
  | Pending => (fst m, Pending)
  end.

(** Issue a collaborator call that settles as [o]. *)
Definition call {A} (ev : Effect) (o : Outcome A) : t A := ([ev], o).

(** A synchronous call made inside the handler. *)
Definition run {A} (c : Sync A) : t A :=
  match c with
  | inr a => ret a
  | inl e => throw e
  end.

(** Await a promise that was obtained without a new call. *)
Definition await {A} (o : Outcome A) : t A := ([], o).

(** [try { m } catch (e) { h e }], and [m.catch(h)]. *)
Definition catch {A} (m : t A) (h : Err -> t A) : t A :=
  match snd m with
  | Rejected e => (fst m ++ fst (h e), snd (h e))
  | _ => m
  end.

(** [Promise.all([p, q])]: both promises are already started; the result
    rejects as soon as one of them does, and is pending otherwise while one
    of them is.  Of several rejections the handlers only see that there is
    one, so the leftmost stands for whichever came first. *)
Definition both {A B} (p : t A) (q : t B) : t (A * B) :=
  (fst p ++ fst q,
   match snd p, snd q with
   | Rejected e, _ => Rejected e
   | _, Rejected e => Rejected e
   | Pending, _ => Pending
   | _, Pending => Pending
   | Resolved a, Resolved b => Resolved (a, b)
   end).

Definition all4 {A B C D} (p : t A) (q : t B) (r : t C) (s : t D) : t (A * B * C * D) :=
  both (both (both p q) r) s.

Definition effects {A} (m : t A) : list Effect := fst m.
Definition outcome {A} (m : t A) : Outcome A := snd m.

End Async.

Notation "x <- m ;; k" := (Async.bind m (fun x => k))
  (at level 61, m at next level, right associativity).
Notation "m ;;; k" := (Async.bind m (fun _ => k))
  (at level 61, right associativity).

(* ================================================================== *)
(** ** Data of the analysis *)

(** [contractInfo.tokenInfo]: [{name, symbol, decimals, totalSupply}] for a
    fungible token, [{name, symbol}] for a non-fungible one. *)
Record TokenInfo : Type := {
  name : string;
  symbol : string;
  decimals : option Z;
  totalSupply : option string
}.

(** [interface ContractInfo]; [bytecodeSize] is a JavaScript number, the
    quotient of an integer by two. *)
Record ContractInfo : Type := {
  exists_ : bool;
  isContract : bool;
  balance : string;
  bytecodeSize : Q;
  isERC20 : bool;
  isERC721 : bool;
  tokenInfo : option TokenInfo;
  transactionCount : Z
}.

(** The sections the response text of step 3 is assembled from, each with
    the values interpolated into it. *)
Inductive TokenSection : Type :=
| Erc20Detected (name symbol : string) (decimals : option Z) (totalSupply : option string)
| Erc721Detected (name symbol : string)
| UnknownType.

Inductive SourceSection : Type :=
| SourceVerified (sourceCodeData : JsVal)
| SourceNotVerified.

Inductive Response : Type :=
| NotAContract (contractAddress balance : string)
| ContractInformation (contractAddress balance : string) (bytecodeSize : Q)
                      (token : TokenSection) (source : SourceSection).

(** What the tool returns: the analysis text, or the text
    [Failed to analyze contract: <message>] of the outer handler. *)
Inductive ToolResult : Type :=
| Analysis (response : Response)
| FailedToAnalyze (message : Err).

(** Result of [get-erc20-balance]: the line
    [Token: name (symbol) / Balance: formattedBalance symbol / Token Address],
    or [Failed to retrieve token balance: <message>]. *)
Inductive BalanceResult : Type :=
| TokenBalance (name symbol formattedBalance tokenAddress : string)
| FailedToRetrieve (message : Err).





(** A report has a token section only on the contract branch. *)
Definition classification (r : Response) : option TokenSection :=
  match r with
  | NotAContract _ _ => None
  | ContractInformation _ _ _ token _ => Some token
  end.

Definition verification (r : Response) : option SourceSection :=
  match r with
  | NotAContract _ _ => None
  | ContractInformation _ _ _ _ source => Some source
  end.

Definition isReadContract (ev : Effect) : bool :=
  match ev with ReadContract _ _ _ _ => true | _ => false end.

Definition isFetch (ev : Effect) : bool :=
  match ev with Fetch _ => true | _ => false end.

Definition isGetBytecode (ev : Effect) : bool :=
  match ev with GetBytecode _ => true | _ => false end.

(** Calls that leave the process: chain reads and the registry request. *)
Definition isNetworkCall (ev : Effect) : bool :=
  match ev with ConsoleLog _ => false | _ => true end.

(* ================================================================== *)
(** ** The handlers *)

Module Server.

Section Handlers.

Variable viem : Viem.
Variable w : World.

(** *** Reading the registry's answer *)

Definition typeError : Err := "TypeError: Cannot read properties of undefined".

(** [v.k] for a key that is neither an index nor inherited ([status],
    [result], [SourceCode]). *)
Definition member (v : JsVal) (k : string) : Async.t JsVal :=
  match v with
  | JUndefined | JNull => Async.throw typeError
  | JObj props => Async.ret (lookup k props)
  | _ => Async.ret JUndefined
  end.

(** [v[0]] *)
Definition element0 (v : JsVal) : Async.t JsVal :=
  match v with
  | JUndefined | JNull => Async.throw typeError
  | JObj props => Async.ret (lookup "0" props)
  | JArr items => Async.ret (hd JUndefined items)
  | JStr (String c _) => Async.ret (JStr (String c ""))
  | _ => Async.ret JUndefined
  end.

Definition apiUrl (contractAddress : string) : string :=
  ("https://api-testnet.monadscan.com/api?module=contract&action=getsourcecode&address="
     ++ contractAddress)%string.

(** Step 1: the value of [sourceCodeData] after the inner [try]. *)
Definition fetchSourceCode (contractAddress : string) : Async.t JsVal :=
  Async.catch
    (response <- Async.call (Fetch (apiUrl contractAddress)) (fetch w (apiUrl contractAddress)) ;;
     if ok response then
       data <- Async.await (json response) ;;
       status <- member data "status" ;;
       if strictEqStr status "1" then
         result <- member data "result" ;;
         first <- element0 result ;;
         sourceCode <- member first "SourceCode" ;;
         if truthy sourceCode then Async.ret first else Async.ret JNull
       else Async.ret JNull
     else Async.ret JNull)
    (fun apiError =>
       Async.call (ConsoleLog "API call failed, proceeding with on-chain analysis")
                  (Resolved tt) ;;;
       Async.ret JNull).

(** *** Probing the token interfaces *)

Definition erc20Abi : Abi :=
  [ {| fn_name := "name"; fn_inputs := []; fn_output := TString |};
    {| fn_name := "symbol"; fn_inputs := []; fn_output := TString |};
    {| fn_name := "decimals"; fn_inputs := []; fn_output := TUint8 |};
    {| fn_name := "totalSupply"; fn_inputs := []; fn_output := TUint256 |} ].

Definition erc721Abi : Abi :=
  [ {| fn_name := "name"; fn_inputs := []; fn_output := TString |};
    {| fn_name := "symbol"; fn_inputs := []; fn_output := TString |};
    {| fn_name := "totalSupply"; fn_inputs := []; fn_output := TUint256 |};
    {| fn_name := "supportsInterface"; fn_inputs := [TBytes4]; fn_output := TBool |} ].

Definition erc721InterfaceId : string := "0x80ac58cd".

(** [publicClient.readContract({address: getAddress(a), abi, functionName, args})] *)
Definition read (a : string) (abi : Abi) (functionName : string) (args : list Arg)
  : Async.t (Returns abi functionName) :=
  Async.call (ReadContract (getAddress viem a) abi functionName args)
             (readContract w (getAddress viem a) abi functionName args).

Definition initialInfo : ContractInfo :=
  {| exists_ := false; isContract := false; balance := "0"; bytecodeSize := 0;
     isERC20 := false; isERC721 := false; tokenInfo := None; transactionCount := 0 |}.

Definition withBalance (ci : ContractInfo) (b : string) : ContractInfo :=
  {| exists_ := exists_ ci; isContract := isContract ci; balance := b;
     bytecodeSize := bytecodeSize ci; isERC20 := isERC20 ci; isERC721 := isERC721 ci;
     tokenInfo := tokenInfo ci; transactionCount := transactionCount ci |}.

Definition withCode (ci : ContractInfo) (size : Q) : ContractInfo :=
  {| exists_ := true; isContract := true; balance := balance ci;
     bytecodeSize := size; isERC20 := isERC20 ci; isERC721 := isERC721 ci;
     tokenInfo := tokenInfo ci; transactionCount := transactionCount ci |}.

Definition withERC20 (ci : ContractInfo) (ti : TokenInfo) : ContractInfo :=
  {| exists_ := exists_ ci; isContract := isContract ci; balance := balance ci;
     bytecodeSize := bytecodeSize ci; isERC20 := true; isERC721 := isERC721 ci;
     tokenInfo := Some ti; transactionCount := transactionCount ci |}.

Definition withERC721 (ci : ContractInfo) (ti : TokenInfo) : ContractInfo :=
  {| exists_ := exists_ ci; isContract := isContract ci; balance := balance ci;
     bytecodeSize := bytecodeSize ci; isERC20 := isERC20 ci; isERC721 := true;
     tokenInfo := Some ti; transactionCount := transactionCount ci |}.

(** [contractInfo.isERC20 = true] alone. *)
Definition markERC20 (ci : ContractInfo) : ContractInfo :=
  {| exists_ := exists_ ci; isContract := isContract ci; balance := balance ci;
     bytecodeSize := bytecodeSize ci; isERC20 := true; isERC721 := isERC721 ci;
     tokenInfo := tokenInfo ci; transactionCount := transactionCount ci |}.

(** The two assignments after the [await], as the [try] leaves
    [contractInfo]: [isERC20] is set first, then the object for [tokenInfo]
    is built.  When [formatUnits] throws while it is built, the empty
    [catch] is entered with the flag set and [tokenInfo] still [null]. *)
Definition recordERC20 (contractInfo : ContractInfo) (name symbol : string)
                       (decimals totalSupply : Z) : ContractInfo :=
  match formatUnits viem totalSupply decimals with
  | inr formatted =>
      withERC20 contractInfo
        {| name := name; symbol := symbol; decimals := Some decimals;
           totalSupply := Some formatted |}
  | inl _ => markERC20 contractInfo
  end.

(** The four reads are started together; when one of them is rejected the
    [catch] leaves [contractInfo] as it was ("Not an ERC20 or missing some
    functions"). *)
Definition probeERC20 (contractAddress : string) (contractInfo : ContractInfo)
  : Async.t ContractInfo :=
  Async.catch
    (r <- Async.all4 (read contractAddress erc20Abi "name" [])
                     (read contractAddress erc20Abi "symbol" [])
                     (read contractAddress erc20Abi "decimals" [])
                     (read contractAddress erc20Abi "totalSupply" []) ;;
     let '(name, symbol, decimals, totalSupply) := r in
     Async.ret (recordERC20 contractInfo name symbol decimals totalSupply))
    (fun _ => Async.ret contractInfo).

(** [name] and [symbol] of the non-fungible probe carry their own [.catch]. *)
Definition erc721Metadata (contractAddress : string) : Async.t (string * string) :=
  Async.both
    (Async.catch (read contractAddress erc721Abi "name" []) (fun _ => Async.ret "Unknown"))
    (Async.catch (read contractAddress erc721Abi "symbol" []) (fun _ => Async.ret "UNKNOWN")).

(** [isERC721] is assigned before the metadata is awaited and [tokenInfo]
    after; the metadata cannot reject, so the [catch] is only reached from
    the [supportsInterface] read, with [contractInfo] untouched. *)
Definition probeERC721 (contractAddress : string) (contractInfo : ContractInfo)
  : Async.t ContractInfo :=
  Async.catch
    (supportsERC721 <- read contractAddress erc721Abi "supportsInterface"
                            [ArgBytes4 erc721InterfaceId] ;;
     if supportsERC721 : bool then
       r <- erc721Metadata contractAddress ;;
       let '(name, symbol) := r in
       Async.ret (withERC721 contractInfo
                    {| name := name; symbol := symbol; decimals := None; totalSupply := None |})
     else Async.ret contractInfo)
    (fun _ => Async.ret contractInfo).

(** *** Step 2: on-chain information *)

(** [bytecode && bytecode !== "0x"]: the code when the test passes. *)
Definition deployedCode (bytecode : option string) : option string :=
  match bytecode with
  | Some code => if negb (String.eqb code "") && negb (String.eqb code "0x")
                 then Some code else None
  | None => None
  end.

(** [(bytecode.length - 2) / 2] *)
Definition sizeOf (bytecode : string) : Q :=
  (Z.of_nat (String.length bytecode) - 2) # 2.

Definition readBalance (contractAddress : string) : Async.t string :=
  b <- Async.call (GetBalance (getAddress viem contractAddress))
                  (getBalance w (getAddress viem contractAddress)) ;;
  Async.ret (formatEther viem b).

(** The two token probes, the second only [if (!contractInfo.isERC20)]. *)
Definition classify (contractAddress : string) (contractInfo : ContractInfo)
  : Async.t ContractInfo :=
  contractInfo <- probeERC20 contractAddress contractInfo ;;
  if negb (isERC20 contractInfo) then probeERC721 contractAddress contractInfo
  else Async.ret contractInfo.

Definition readBytecode (contractAddress : string) : Async.t (option string) :=
  Async.call (GetBytecode (getAddress viem contractAddress))
             (getBytecode w (getAddress viem contractAddress)).

Definition inspect (contractAddress : string) : Async.t ContractInfo :=
  bytecode <- readBytecode contractAddress ;;
  match deployedCode bytecode with
  | Some code =>
      b <- readBalance contractAddress ;;
      classify contractAddress (withBalance (withCode initialInfo (sizeOf code)) b)
  | None =>
      b <- readBalance contractAddress ;;
      Async.ret (withBalance initialInfo b)
  end.

(** *** Step 3: the response *)

Definition tokenSection (contractInfo : ContractInfo) : TokenSection :=
  match isERC20 contractInfo, tokenInfo contractInfo with
  | true, Some ti => Erc20Detected (name ti) (symbol ti) (decimals ti) (totalSupply ti)
  | _, _ =>
      match isERC721 contractInfo, tokenInfo contractInfo with
      | true, Some ti => Erc721Detected (name ti) (symbol ti)
      | _, _ => UnknownType
      end
  end.

Definition sourceSection (sourceCodeData : JsVal) : SourceSection :=
  if truthy sourceCodeData then SourceVerified sourceCodeData else SourceNotVerified.

Definition buildResponse (contractAddress : string) (contractInfo : ContractInfo)
                         (sourceCodeData : JsVal) : Response :=
  if negb (isContract contractInfo)
  then NotAContract contractAddress (balance contractInfo)
  else ContractInformation contractAddress (balance contractInfo)
         (bytecodeSize contractInfo) (tokenSection contractInfo)
         (sourceSection sourceCodeData).

(** *** Tool 7: [get-contract-source] *)

Definition analyze (contractAddress : string) : Async.t Response :=
  (if negb (isAddress viem contractAddress)
   then Async.throw "Invalid contract address format"
   else Async.ret tt) ;;;
  sourceCodeData <- fetchSourceCode contractAddress ;;
  contractInfo <- inspect contractAddress ;;
  Async.ret (buildResponse contractAddress contractInfo sourceCodeData).

Definition getContractSource (contractAddress : string) : Async.t ToolResult :=
  Async.catch
    (response <- analyze contractAddress ;; Async.ret (Analysis response))
    (fun error => Async.ret (FailedToAnalyze error)).

(** *** Tool 2: [get-erc20-balance] *)

Definition balanceAbi : Abi :=
  [ {| fn_name := "balanceOf"; fn_inputs := [TAddress]; fn_output := TUint256 |};
    {| fn_name := "name"; fn_inputs := []; fn_output := TString |};
    {| fn_name := "symbol"; fn_inputs := []; fn_output := TString |};
    {| fn_name := "decimals"; fn_inputs := []; fn_output := TUint8 |} ].

Definition tokenReads (address tokenAddress : string) : Async.t (Z * string * string * Z) :=
  Async.all4
    (read tokenAddress balanceAbi "balanceOf" [ArgAddress (getAddress viem address)])
    (Async.catch (read tokenAddress balanceAbi "name" []) (fun _ => Async.ret "Unknown"))
    (Async.catch (read tokenAddress balanceAbi "symbol" []) (fun _ => Async.ret "UNKNOWN"))
    (Async.catch (read tokenAddress balanceAbi "decimals" []) (fun _ => Async.ret 18%Z)).

Definition getErc20Balance (address tokenAddress : string) : Async.t BalanceResult :=
  Async.catch
    ((if negb (isAddress viem address) || negb (isAddress viem tokenAddress)
      then Async.throw "Invalid address format"
      else Async.ret tt) ;;;
     r <- tokenReads address tokenAddress ;;
     let '(balance, name, symbol, decimals) := r in
     formattedBalance <- Async.run (formatUnits viem balance decimals) ;;
     Async.ret (TokenBalance name symbol formattedBalance tokenAddress))
    (fun error => Async.ret (FailedToRetrieve error)).

End Handlers.

End Server.

(* ================================================================== *)
(** ** Sample networks

    Concrete collaborators on which the handlers are run. *)

Module Sample.

Definition isHexDigit (c : Ascii.ascii) : bool :=
  let n := Ascii.nat_of_ascii c in
  ((48 <=? n) && (n <=? 57) || (65 <=? n) && (n <=? 70) || (97 <=? n) && (n <=? 102))%nat.

Fixpoint allHex (s : string) : bool :=
  match s with
  | EmptyString => true
  | String c rest => isHexDigit c && allHex rest
  end.

(** The format part of viem's check: [0x] and forty hex digits. *)
Definition wellFormed (s : string) : bool :=
  match s with
  | String "0"%char (String "x"%char digits) => (String.length digits =? 40)%nat && allHex digits
  | _ => false
  end.

Definition printZ (z : Z) : string := NilZero.string_of_int (Z.to_int z).

(** Stand-ins for the viem functions: addresses are kept as written and
    amounts are printed in whole units, the fraction dropped; a number of
    decimals beyond what a string holds is refused. *)
Definition viem : Viem :=
  {| isAddress := wellFormed;
     getAddress := fun a => a;
     formatEther := fun wei => printZ (wei / 10 ^ 18);
     formatUnits := fun value decimals =>
       if ((0 <=? decimals) && (decimals <=? 2 ^ 29))%Z
       then inr (printZ (value / 10 ^ decimals))
       else inl "Invalid string length" |}.

Definition byType (s : Outcome string) (n : Outcome Z) (b : Outcome bool) (t : AbiType)
  : Outcome (decoded t) :=
  match t with
  | TString | TAddress | TBytes4 => s
  | TUint8 | TUint256 => n
  | TBool => b
  end.

(** A contract answering every string function with [s], every integer
    function with [n] and every boolean function with [b], except the
    functions named in [failing], which revert. *)
Definition contract (s : Outcome string) (n : Outcome Z) (b : Outcome bool)
                    (failing : list string)
                    (address : string) (abi : Abi) (functionName : string) (args : list Arg)
  : Outcome (Returns abi functionName) :=
  match findFunction abi functionName as o
        return Outcome (match o with Some f => decoded (fn_output f) | None => unit end) with
  | Some f =>
      if existsb (String.eqb functionName) failing
      then Rejected "execution reverted"
      else byType s n b (fn_output f)
  | None => Rejected "Function not found on ABI"
  end.

Definition addr : string := "0x00000000000000000000000000000000000000a1".

Definition unverified : HttpResponse :=
  {| ok := true;
     json := Resolved (JObj [("status", JStr "0"); ("message", JStr "NOTOK");
                             ("result", JStr "Contract source code not verified")]) |}.

Definition verified : HttpResponse :=
  {| ok := true;
     json := Resolved (JObj [("status", JStr "1");
                             ("result", JArr [JObj [("SourceCode", JStr "contract T {}");
                                                    ("ContractName", JStr "T");
                                                    ("CompilerVersion", JStr "v0.8.24");
                                                    ("OptimizationUsed", JStr "1");
                                                    ("Runs", JStr "200")]])]) |}.

(** A success status with an empty result list. *)
Definition emptyResult : HttpResponse :=
  {| ok := true; json := Resolved (JObj [("status", JStr "1"); ("result", JArr [])]) |}.

(** An account without code holding five units. *)
Definition account : World :=
  {| fetch := fun _ => Resolved unverified;
     getBytecode := fun _ => Resolved None;
     getBalance := fun _ => Resolved 5000000000000000000%Z;
     readContract := contract (Resolved "T") (Resolved 0%Z) (Resolved true) [] |}.

(** A contract answering every probe of both candidates. *)
Definition hybridToken : World :=
  {| fetch := fun _ => Resolved verified;
     getBytecode := fun _ => Resolved (Some "0x6080");
     getBalance := fun _ => Resolved 0%Z;
     readContract := contract (Resolved "Token") (Resolved 6%Z) (Resolved true) [] |}.

(** As [hybridToken], with the functions in [failing] reverting and the
    registry answering [response]. *)
Definition token (failing : list string) (response : Outcome HttpResponse) : World :=
  {| fetch := fun _ => response;
     getBytecode := fun _ => Resolved (Some "0x6080");
     getBalance := fun _ => Resolved 0%Z;
     readContract := contract (Resolved "Token") (Resolved 6%Z) (Resolved true) failing |}.

End Sample.

Unset Implicit Arguments.

(* ================================================================== *)
(** ** What the network answers to one analysis *)

Section Answers.

Variable viem : Viem.
Variable w : World.
Variable a : string.

Definition target : string := getAddress viem a.

Definition name20 : Outcome string := readContract w target Server.erc20Abi "name" [].
Definition symbol20 : Outcome string := readContract w target Server.erc20Abi "symbol" [].
Definition decimals20 : Outcome Z := readContract w target Server.erc20Abi "decimals" [].
Definition totalSupply20 : Outcome Z := readContract w target Server.erc20Abi "totalSupply" [].

Definition supports721 : Outcome bool :=
  readContract w target Server.erc721Abi "supportsInterface"
               [ArgBytes4 Server.erc721InterfaceId].
Definition name721 : Outcome string := readContract w target Server.erc721Abi "name" [].
Definition symbol721 : Outcome string := readContract w target Server.erc721Abi "symbol" [].

(** Every required function of the fungible candidate succeeded. *)
Definition erc20Satisfied : bool :=
  resolved name20 && resolved symbol20 && resolved decimals20 && resolved totalSupply20.

(** One of them failed. *)
Definition erc20Failed : bool :=
  rejected name20 || rejected symbol20 || rejected decimals20 || rejected totalSupply20.

(** The required function of the non-fungible candidate succeeded: the
    contract declares the interface. *)
Definition erc721Satisfied : bool :=
  match supports721 with Resolved true => true | _ => false end.

(** The registry request and the reading of its body both settle. *)
Definition registrySettles : bool :=
  match fetch w (Server.apiUrl a) with
  | Resolved response => if ok response then settled (json response) else true
  | Rejected _ => true
  | Pending => false
  end.

(** Every read the two probes can issue settles. *)
Definition probesSettle : bool :=
  settled name20 && settled symbol20 && settled decimals20 && settled totalSupply20
  && settled supports721 && settled name721 && settled symbol721.

Definition reads20 : list Effect :=
  [ ReadContract target Server.erc20Abi "name" [];
    ReadContract target Server.erc20Abi "symbol" [];
    ReadContract target Server.erc20Abi "decimals" [];
    ReadContract target Server.erc20Abi "totalSupply" [] ].

Definition readSupports : Effect :=
  ReadContract target Server.erc721Abi "supportsInterface" [ArgBytes4 Server.erc721InterfaceId].

Definition reads721 : list Effect :=
  [ ReadContract target Server.erc721Abi "name" [];
    ReadContract target Server.erc721Abi "symbol" [] ].

End Answers.

(** The answers [get-erc20-balance] asks for. *)
Section BalanceAnswers.

Variable viem : Viem.
Variable w : World.
Variables address tokenAddress : string.

Definition balanceOfB : Outcome Z :=
  readContract w (getAddress viem tokenAddress) Server.balanceAbi "balanceOf"
               [ArgAddress (getAddress viem address)].
Definition decimalsB : Outcome Z :=
  readContract w (getAddress viem tokenAddress) Server.balanceAbi "decimals" [].

End BalanceAnswers.

(** The value a [.catch(() => d)] leaves. *)
Definition orDefault {A} (o : Outcome A) (d : A) : A :=
  match o with Resolved x => x | _ => d end.


(* ================================================================== *)
(** ** The other tools *)

Module Tools.

Section Handlers.

Variable viem : Viem.
Variable w : World.

(** Tool 1: [get-mon-balance].  The text names the address as it was given. *)
Definition getMonBalance (address : string) : Async.t string :=
  Async.catch
    ((if negb (isAddress viem address)
      then Async.throw "Invalid address format"
      else Async.ret tt) ;;;
     balance <- Async.call (GetBalance (getAddress viem address))
                           (getBalance w (getAddress viem address)) ;;
     formatted <- Async.run (formatUnits viem balance 18) ;;
     Async.ret ("Balance for " ++ address ++ ": " ++ formatted ++ " MON")%string)
    (fun error => Async.ret ("Failed to retrieve balance: " ++ error)%string).

End Handlers.

(** *** Tool 9: [estimate-priority-fee]

    The figures computed from the gas price and the latest block, as they
    are handed to [formatGwei]. *)
Record GasEstimates : Type := {
  currentGasPrice : Z;
  baseFee : Z;
  priorityFee : Z;
  recommendedGasPrice : Z
}.

(** [v || 0n] for a [bigint] that may be [null]. *)
Definition orZero (v : option Z) : Z :=
  match v with
  | Some n => if (n =? 0)%Z then 0%Z else n
  | None => 0%Z
  end.

(** [bigint] division truncates towards zero. *)
Definition gasEstimates (gasPrice : Z) (baseFeePerGas : option Z) : GasEstimates :=
  let baseFee := orZero baseFeePerGas in
  let priorityFee := (gasPrice - baseFee)%Z in
  {| currentGasPrice := gasPrice;
     baseFee := baseFee;
     priorityFee := priorityFee;
     recommendedGasPrice := (gasPrice + Z.quot priorityFee 2)%Z |}.

End Tools.

(** *** Tool 11: [convert] *)

Module Convert.

(** [z.enum(["hex", "string", "number", "text"])] *)
Inductive From : Type := FromHex | FromString | FromNumber | FromText.

(** [z.enum(["hex", "string", "number", "keccak256", "address"])] *)
Inductive To : Type := ToHex | ToString | ToNumber | ToKeccak256 | ToAddress.

Definition isFrom (x y : From) : bool :=
  match x, y with
  | FromHex, FromHex | FromString, FromString
  | FromNumber, FromNumber | FromText, FromText => true
  | _, _ => false
  end.

Definition isTo (x y : To) : bool :=
  match x, y with
  | ToHex, ToHex | ToString, ToString | ToNumber, ToNumber
  | ToKeccak256, ToKeccak256 | ToAddress, ToAddress => true
  | _, _ => false
  end.

(** A synchronous computation: the value, or what was thrown. *)
Definition Sync (A : Type) : Type := (Err + A)%type.

Definition bind {A B} (m : Sync A) (k : A -> Sync B) : Sync B :=
  match m with
  | inl e => inl e
  | inr a => k a
  end.

(** The conversions the tool calls, each of which may throw on a malformed
    argument, but for [stringToHex], which takes any string. *)
Record Lib : Type := {
  hexToString : string -> Sync string;
  stringToHex : string -> string;
  toHex : Z -> Sync string;
  fromHex : string -> Sync Z;
  keccak256 : string -> Sync string;
  getAddress : string -> Sync string;
  BigInt : string -> Sync Z
}.

(** [bigint.toString()] *)
Definition toString (n : Z) : string := NilZero.string_of_int (Z.to_int n).

(** The text returned: the four lines of the conversion result, or
    [Conversion failed: <message>]. *)
Inductive Text : Type :=
| ConversionResult (input : string) (from : From) (to : To) (result : string)
| ConversionFailed (message : Err).

Section Handler.

Variable lib : Lib.

(** The chain of conditionals assigning [result]. *)
Definition result (input : string) (from : From) (to : To) : Sync string :=
  if isFrom from FromHex && isTo to ToString then hexToString lib input
  else if isFrom from FromString && isTo to ToHex then inr (stringToHex lib input)
  else if isFrom from FromNumber && isTo to ToHex then bind (BigInt lib input) (toHex lib)
  else if isFrom from FromHex && isTo to ToNumber
       then bind (fromHex lib input) (fun n => inr (toString n))
  else if isTo to ToKeccak256
       then if isFrom from FromHex then keccak256 lib input
            else keccak256 lib (stringToHex lib input)
  else if isTo to ToAddress && isFrom from FromString then getAddress lib input
  else inr input.

Definition convert (input : string) (from : From) (to : To) : Text :=
  match result input from to with
  | inr r => ConversionResult input from to r
  | inl error => ConversionFailed error
  end.

End Handler.

End Convert.

(** *** The tool list of the front page *)

Module Frontend.

(** An entry of [tools]; [example], [params] and [response] are displayed
    only and left out. *)
Record Tool : Type := {
  id : string;
  category : string;
  name : string;
  description : string
}.

Definition tools : list Tool :=
  [ {| id := "get-mon-balance"; category := "balance"; name := "Get MON Balance";
       description := "Retrieve MON balance for any address on Monad testnet" |};
    {| id := "get-erc20-balance"; category := "balance"; name := "Get ERC20 Balance";
       description := "Check ERC20 token balances with automatic token information retrieval" |};
    {| id := "get-transaction"; category := "transaction"; name := "Get Transaction";
       description := "Retrieve detailed transaction information by hash" |};
    {| id := "get-block"; category := "transaction"; name := "Get Block";
       description := "Fetch block information by number or get latest block" |};
    {| id := "get-contract-source"; category := "contract"; name := "Get Contract Source";
       description := "Retrieve contract source code and analyze contract type (ERC20, NFT, etc)" |};
    {| id := "readContract"; category := "contract"; name := "Read Contract";
       description := "Read data from any contract function with custom ABI support" |};
    {| id := "estimate-priority-fee"; category := "network"; name := "Estimate Gas Fees";
       description := "Get current gas price and priority fee estimates" |};
    {| id := "convert"; category := "utility"; name := "Convert Data";
       description := "Convert between hex, string, number, and keccak256" |};
    {| id := "decode-calldata"; category := "utility"; name := "Decode Calldata";
       description := "Decode transaction calldata to human-readable function calls" |};
    {| id := "monad-docs"; category := "utility"; name := "Monad Documentation";
       description := "Access Monad developer documentation directly" |} ].

(** [s.includes(sub)] *)
Fixpoint includes (s sub : string) : bool :=
  String.prefix sub s
  || match s with
     | EmptyString => false
     | String _ rest => includes rest sub
     end.

Section Filter.

(** [String.prototype.toLowerCase] *)
Variable toLowerCase : string -> string.

Definition matches (selectedCategory searchQuery : string) (tool : Tool) : bool :=
  let matchesCategory :=
    String.eqb selectedCategory "all" || String.eqb (category tool) selectedCategory in
  let matchesSearch :=
    includes (toLowerCase (name tool)) (toLowerCase searchQuery)
    || includes (toLowerCase (description tool)) (toLowerCase searchQuery) in
  matchesCategory && matchesSearch.

Definition filterTools (entries : list Tool) (selectedCategory searchQuery : string)
  : list Tool :=
  filter (matches selectedCategory searchQuery) entries.

Definition filteredTools (selectedCategory searchQuery : string) : list Tool :=
  filterTools tools selectedCategory searchQuery.

End Filter.

End Frontend.

(** Stand-ins for the conversions and for lower-casing, and one more
    sample contract. *)
Module Bench.

Definition hexDigit (n : nat) : ascii :=
  ascii_of_nat (if (n <? 10)%nat then 48 + n else 87 + n).

Fixpoint hexOf (s : string) : string :=
  match s with
  | EmptyString => EmptyString
  | String c rest =>
      String (hexDigit (nat_of_ascii c / 16))
             (String (hexDigit (nat_of_ascii c mod 16)) (hexOf rest))
  end.

Definition digitOf (c : ascii) : nat :=
  let n := nat_of_ascii c in
  if (n <? 58)%nat then n - 48 else n - 87.

Fixpoint textOf (digits : string) : string :=
  match digits with
  | String hi (String lo rest) =>
      String (ascii_of_nat (16 * digitOf hi + digitOf lo)) (textOf rest)
  | _ => EmptyString
  end.

Definition unprefixed (hex : string) : Convert.Sync string :=
  match hex with
  | String "0"%char (String "x"%char digits) =>
      if Sample.allHex digits then inr digits else inl "Invalid hex value"
  | _ => inl "Invalid hex value"
  end.

(** Hex encodings of the bytes of a text; numbers and hashes are not
    needed and refuse every argument. *)
Definition lib : Convert.Lib :=
  {| Convert.hexToString := fun hex => Convert.bind (unprefixed hex) (fun d => inr (textOf d));
     Convert.stringToHex := fun s => ("0x" ++ hexOf s)%string;
     Convert.toHex := fun _ => inl "unsupported";
     Convert.fromHex := fun _ => inl "unsupported";
     Convert.keccak256 := fun hex => Convert.bind (unprefixed hex) (fun d => inr ("hash:" ++ d)%string);
     Convert.getAddress := fun s => if Sample.wellFormed s then inr s else inl "Address is invalid";
     Convert.BigInt := fun _ => inl "unsupported" |}.

(** A verified contract that answers every probe of both candidates and
    reports [2 ^ 40] for every integer, its decimals included. *)
Definition oddToken : World :=
  {| fetch := fun _ => Resolved Sample.verified;
     getBytecode := fun _ => Resolved (Some "0x6080");
     getBalance := fun _ => Resolved 0%Z;
     readContract :=
       Sample.contract (Resolved "Token") (Resolved (2 ^ 40)%Z) (Resolved true) [] |}.

Definition lowerChar (c : ascii) : ascii :=
  let n := nat_of_ascii c in
  if ((65 <=? n) && (n <=? 90))%nat then ascii_of_nat (n + 32) else c.

Fixpoint toLowerCase (s : string) : string :=
  match s with
  | EmptyString => EmptyString
  | String c rest => String (lowerChar c) (toLowerCase rest)
  end.

End Bench.

(* ================================================================== *)
(** ** Vocabulary of the properties *)

(** The ways the registry fails to give a source: the request does not get
    through, the HTTP status is not a success, the body is not JSON, the
    [status] field is not ["1"], the result list is empty, or its first
    entry has no source code or an empty one. *)
Inductive RegistryFailure : Outcome HttpResponse -> Prop :=
| TransportFailure e :
    RegistryFailure (Rejected e)
| HttpStatus response :
    ok response = false -> RegistryFailure (Resolved response)
| BodyUnreadable response e :
    ok response = true -> json response = Rejected e ->
    RegistryFailure (Resolved response)
| ApiStatus response props :
    ok response = true -> json response = Resolved (JObj props) ->
    strictEqStr (lookup "status" props) "1" = false ->
    RegistryFailure (Resolved response)
| EmptyResult response props :
    ok response = true -> json response = Resolved (JObj props) ->
    strictEqStr (lookup "status" props) "1" = true ->
    lookup "result" props = JArr [] ->
    RegistryFailure (Resolved response)
| NoSourceCode response props fields rest :
    ok response = true -> json response = Resolved (JObj props) ->
    strictEqStr (lookup "status" props) "1" = true ->
    lookup "result" props = JArr (JObj fields :: rest) ->
    truthy (lookup "SourceCode" fields) = false ->
    RegistryFailure (Resolved response).

(** The line logged when the lookup throws. *)
Definition logged : Effect :=
  ConsoleLog "API call failed, proceeding with on-chain analysis".

(** The probes touch the token fields only. *)
Definition sameAccount (ci ci' : ContractInfo) : Prop :=
  isContract ci' = isContract ci /\ balance ci' = balance ci /\
  bytecodeSize ci' = bytecodeSize ci.

(** The two chain reads every analysis past the registry starts with. *)
Definition chainReads (viem : Viem) (a : string) : list Effect :=
  [GetBytecode (target viem a); GetBalance (target viem a)].

Definition isSupportsInterface (ev : Effect) : bool :=
  match ev with
  | ReadContract _ _ functionName _ => String.eqb functionName "supportsInterface"
  | _ => false
  end.

(** The contract information handed to the classifier. *)
Definition beforeProbes (viem : Viem) (code : string) (wei : Z) : ContractInfo :=
  Server.withBalance (Server.withCode Server.initialInfo (Server.sizeOf code))
                     (formatEther viem wei).

(** The report says the source is verified. *)
Definition sourceVerified (r : Response) : bool :=
  match r with
  | ContractInformation _ _ _ _ (SourceVerified _) => true
  | _ => false
  end.

(** [result[0]] where reading it does not throw. *)
Definition firstEntry (result : JsVal) : JsVal :=
  match result with
  | JArr items => hd JUndefined items
  | JObj props => lookup "0" props
  | JStr (String c _) => JStr (String c "")
  | _ => JUndefined
  end.

(** The registry gives a source: a success status, a body whose [status] is
    ["1"] and whose first result is an object with a non-empty source. *)
Inductive RegistrySuccess : Outcome HttpResponse -> JsVal -> Prop :=
| SourceFound response props fields :
    ok response = true -> json response = Resolved (JObj props) ->
    strictEqStr (lookup "status" props) "1" = true ->
    firstEntry (lookup "result" props) = JObj fields ->
    truthy (lookup "SourceCode" fields) = true ->
    RegistrySuccess (Resolved response) (JObj fields).

(** The supply and the decimals were read and [formatUnits] throws on them. *)
Definition supplyUnformattable (viem : Viem) (w : World) (a : string) : bool :=
  match totalSupply20 viem w a, decimals20 viem w a with
  | Resolved t, Resolved d =>
      match formatUnits viem t d with inl _ => true | inr _ => false end
  | _, _ => false
  end.

(** Both token flags are clear and no token information is recorded. *)
Definition unclassified (ci : ContractInfo) : Prop :=
  isERC20 ci = false /\ isERC721 ci = false /\ tokenInfo ci = None.

(** The balance a report shows. *)
Definition shownBalance (r : Response) : string :=
  match r with
  | NotAContract _ balance => balance
  | ContractInformation _ balance _ _ _ => balance
  end.

(** The four reads of [get-erc20-balance], in the order they are started. *)
Definition balanceReads (viem : Viem) (address tokenAddress : string) : list Effect :=
  [ ReadContract (getAddress viem tokenAddress) Server.balanceAbi "balanceOf"
                 [ArgAddress (getAddress viem address)];
    ReadContract (getAddress viem tokenAddress) Server.balanceAbi "name" [];
    ReadContract (getAddress viem tokenAddress) Server.balanceAbi "symbol" [];
    ReadContract (getAddress viem tokenAddress) Server.balanceAbi "decimals" [] ].

(* ================================================================== *)
(** ** The probes *)

Section Probes.

Variable viem : Viem.
Variable w : World.
Variable a : string.

Local Ltac run :=
  unfold Server.probeERC20, Server.probeERC721, Server.erc721Metadata, Server.classify,
    Server.read, Async.all4, Async.both, Async.catch, Async.bind, Async.call, Async.ret,
    Async.outcome, Async.effects; cbn.

Local Ltac answers :=
  unfold probesSettle, erc20Failed, erc20Satisfied, erc721Satisfied, name20, symbol20, decimals20,
    totalSupply20, supports721, name721, symbol721, reads20, reads721, readSupports,
    target in *.

Local Ltac split20 :=
  destruct (readContract w (getAddress viem a) Server.erc20Abi "name" []);
  destruct (readContract w (getAddress viem a) Server.erc20Abi "symbol" []);
  destruct (readContract w (getAddress viem a) Server.erc20Abi "decimals" []);
  destruct (readContract w (getAddress viem a) Server.erc20Abi "totalSupply" []).

Local Ltac split721 :=
  destruct (readContract w (getAddress viem a) Server.erc721Abi "supportsInterface"
                         [ArgBytes4 Server.erc721InterfaceId]) as [[|]| |];
  destruct (readContract w (getAddress viem a) Server.erc721Abi "name" []);
  destruct (readContract w (getAddress viem a) Server.erc721Abi "symbol" []).

(** The fungible probe issues its four reads whatever they answer. *)
Lemma probeERC20_effects (ci : ContractInfo) :
  Async.effects (Server.probeERC20 viem w a ci) = reads20 viem a.
Proof. run; answers; split20; reflexivity. Qed.

Lemma probeERC20_never_rejects (ci : ContractInfo) :
  rejected (Async.outcome (Server.probeERC20 viem w a ci)) = false.
Proof. run; split20; reflexivity. Qed.

Lemma probeERC20_satisfied (ci : ContractInfo) n s d t :
  name20 viem w a = Resolved n -> symbol20 viem w a = Resolved s ->
  decimals20 viem w a = Resolved d -> totalSupply20 viem w a = Resolved t ->
  Server.probeERC20 viem w a ci =
    (reads20 viem a, Resolved (Server.recordERC20 viem ci n s d t)).
Proof.
  answers; intros Hn Hs Hd Ht; run.
  rewrite Hn, Hs, Hd, Ht; reflexivity.
Qed.

(** The flag is set whether or not the supply can be formatted. *)
Lemma recordERC20_isERC20 (ci : ContractInfo) n s d t :
  isERC20 (Server.recordERC20 viem ci n s d t) = true.
Proof. unfold Server.recordERC20; destruct (formatUnits viem t d); reflexivity. Qed.

Lemma probeERC20_failed (ci : ContractInfo) :
  erc20Failed viem w a = true ->
  Server.probeERC20 viem w a ci = (reads20 viem a, Resolved ci).
Proof. answers; run; split20; cbn; intros H; try discriminate H; reflexivity. Qed.

Lemma probeERC20_pending (ci : ContractInfo) :
  erc20Failed viem w a = false -> erc20Satisfied viem w a = false ->
  Server.probeERC20 viem w a ci = (reads20 viem a, Pending).
Proof.
  answers; run; split20; cbn; intros H1 H2; try discriminate H1; try discriminate H2;
    reflexivity.
Qed.

(** The fungible probe leaves [isERC20] set exactly when all four resolved. *)
Lemma probeERC20_isERC20 (ci ci' : ContractInfo) :
  isERC20 ci = false ->
  Async.outcome (Server.probeERC20 viem w a ci) = Resolved ci' ->
  isERC20 ci' = erc20Satisfied viem w a.
Proof.
  answers; run; split20; cbn; intros H0 H; inversion H; subst; cbn;
    rewrite ?recordERC20_isERC20; auto.
Qed.

Lemma erc721Metadata_never_rejects :
  rejected (Async.outcome (Server.erc721Metadata viem w a)) = false.
Proof.
  run.
  destruct (readContract w (getAddress viem a) Server.erc721Abi "name" []);
  destruct (readContract w (getAddress viem a) Server.erc721Abi "symbol" []);
  reflexivity.
Qed.

Lemma probeERC721_effects_prefix (ci : ContractInfo) :
  exists rest, Async.effects (Server.probeERC721 viem w a ci) = readSupports viem a :: rest.
Proof. run; answers; split721; cbn; eexists; reflexivity. Qed.

Lemma probeERC721_never_rejects (ci : ContractInfo) :
  rejected (Async.outcome (Server.probeERC721 viem w a ci)) = false.
Proof. run; split721; reflexivity. Qed.

Lemma probeERC721_declared (ci : ContractInfo) :
  supports721 viem w a = Resolved true ->
  settled (name721 viem w a) = true -> settled (symbol721 viem w a) = true ->
  Server.probeERC721 viem w a ci =
    (readSupports viem a :: reads721 viem a,
     Resolved (Server.withERC721 ci
                 {| name := orDefault (name721 viem w a) "Unknown";
                    symbol := orDefault (symbol721 viem w a) "UNKNOWN";
                    decimals := None; totalSupply := None |})).
Proof.
  answers; run; intros H; rewrite H; cbn.
  destruct (readContract w (getAddress viem a) Server.erc721Abi "name" []);
  destruct (readContract w (getAddress viem a) Server.erc721Abi "symbol" []);
  cbn; intros H1 H2; try discriminate H1; try discriminate H2; reflexivity.
Qed.

Lemma probeERC721_denied (ci : ContractInfo) :
  supports721 viem w a = Resolved false ->
  Server.probeERC721 viem w a ci = ([readSupports viem a], Resolved ci).
Proof. answers; run; intros H; rewrite H; reflexivity. Qed.

Lemma probeERC721_failed (ci : ContractInfo) e :
  supports721 viem w a = Rejected e ->
  Server.probeERC721 viem w a ci = ([readSupports viem a], Resolved ci).
Proof. answers; run; intros H; rewrite H; reflexivity. Qed.

Lemma probeERC721_declared_effects (ci : ContractInfo) :
  supports721 viem w a = Resolved true ->
  Async.effects (Server.probeERC721 viem w a ci) = readSupports viem a :: reads721 viem a.
Proof.
  answers; run; intros H; rewrite H; cbn.
  destruct (readContract w (getAddress viem a) Server.erc721Abi "name" []);
  destruct (readContract w (getAddress viem a) Server.erc721Abi "symbol" []);
  reflexivity.
Qed.

Lemma probeERC721_reads_only (ci : ContractInfo) :
  forallb isReadContract (Async.effects (Server.probeERC721 viem w a ci)) = true.
Proof. run; split721; reflexivity. Qed.


Lemma recordERC20_keeps_account (ci : ContractInfo) n s d t :
  sameAccount ci (Server.recordERC20 viem ci n s d t).
Proof.
  unfold Server.recordERC20; destruct (formatUnits viem t d); repeat split.
Qed.

Lemma probeERC20_keeps_account (ci ci' : ContractInfo) :
  Async.outcome (Server.probeERC20 viem w a ci) = Resolved ci' -> sameAccount ci ci'.
Proof.
  run; split20; cbn; intros H; inversion H; subst;
    try apply recordERC20_keeps_account; repeat split.
Qed.

Lemma probeERC721_keeps_account (ci ci' : ContractInfo) :
  Async.outcome (Server.probeERC721 viem w a ci) = Resolved ci' -> sameAccount ci ci'.
Proof.
  run; split721; cbn; intros H; inversion H; subst; repeat split.
Qed.

(** Settled answers either satisfy the fungible candidate or fail it. *)
Lemma settled_erc20 :
  probesSettle viem w a = true ->
  erc20Failed viem w a = true \/
  exists n s d t, name20 viem w a = Resolved n /\ symbol20 viem w a = Resolved s /\
                  decimals20 viem w a = Resolved d /\ totalSupply20 viem w a = Resolved t.
Proof.
  answers; split20; cbn; intros H; try discriminate H; auto;
    right; do 4 eexists; repeat split; reflexivity.
Qed.

Lemma settled_erc721 :
  probesSettle viem w a = true ->
  settled (supports721 viem w a) = true /\ settled (name721 viem w a) = true /\
  settled (symbol721 viem w a) = true.
Proof.
  unfold probesSettle; intros H.
  repeat (apply andb_true_iff in H; destruct H as [H ?]); auto.
Qed.

End Probes.

(* ================================================================== *)
(** ** The registry lookup *)


Arguments Server.apiUrl : simpl never.

Section Registry.

Variable w : World.
Variable a : string.

Local Ltac run :=
  unfold Server.fetchSourceCode, Server.member, Server.element0, Async.catch, Async.bind,
    Async.call, Async.await, Async.ret, Async.throw, Async.outcome, Async.effects,
    registrySettles; cbn.

Local Ltac cases :=
  repeat (cbn; match goal with
               | |- context [fetch w ?u] => destruct (fetch w u)
               | |- context [ok ?r] => destruct (ok r)
               | |- context [json ?r] => destruct (json r)
               | |- context [strictEqStr ?v ?s] => destruct (strictEqStr v s)
               | |- context [truthy ?v] => destruct (truthy v)
               | |- context [hd ?d ?l] => destruct (hd d l)
               | |- context [lookup ?k ?p] => destruct (lookup k p)
               | |- context [match ?x with _ => _ end] => is_var x; destruct x
               end).


Lemma fetchSourceCode_never_rejects :
  rejected (Async.outcome (Server.fetchSourceCode w a)) = false.
Proof. run; cases; reflexivity. Qed.

Lemma fetchSourceCode_settles :
  settled (Async.outcome (Server.fetchSourceCode w a)) = registrySettles w a.
Proof. run; cases; reflexivity. Qed.

(** One request, and at most the log line after it. *)
Lemma fetchSourceCode_effects :
  Async.effects (Server.fetchSourceCode w a) = [Fetch (Server.apiUrl a)] \/
  Async.effects (Server.fetchSourceCode w a) = [Fetch (Server.apiUrl a); logged].
Proof. run; cases; auto. Qed.

Lemma fetchSourceCode_pending :
  registrySettles w a = false ->
  Server.fetchSourceCode w a = ([Fetch (Server.apiUrl a)], Pending).
Proof. run; cases; intros H; try discriminate H; reflexivity. Qed.

Lemma fetchSourceCode_failure :
  RegistryFailure (fetch w (Server.apiUrl a)) ->
  Async.outcome (Server.fetchSourceCode w a) = Resolved JNull.
Proof.
  unfold Server.fetchSourceCode, Async.catch, Async.bind, Async.call, Async.outcome.
  destruct 1 as [e | r Hok | r e Hok Hj | r props Hok Hj Hs
                 | r props Hok Hj Hs Hr | r props fields rest Hok Hj Hs Hr Ht];
    cbn; try rewrite Hok; cbn; try rewrite Hj; cbn; try rewrite Hs; cbn;
    try rewrite Hr; cbn; try rewrite Ht; reflexivity.
Qed.

End Registry.

(* ================================================================== *)
(** ** Classification and assembly *)

Section Assembly.

Variable viem : Viem.
Variable w : World.
Variable a : string.

Local Ltac bindings :=
  unfold Server.classify, Server.inspect, Server.readBytecode, Server.readBalance,
    Server.analyze, Server.getContractSource, Async.catch, Async.bind, Async.call,
    Async.ret, Async.throw, Async.outcome, Async.effects.

(** The fungible candidate matched: the second probe is not started. *)
Lemma classify_fungible (ci : ContractInfo) n s d t :
  name20 viem w a = Resolved n -> symbol20 viem w a = Resolved s ->
  decimals20 viem w a = Resolved d -> totalSupply20 viem w a = Resolved t ->
  Server.classify viem w a ci =
    (reads20 viem a, Resolved (Server.recordERC20 viem ci n s d t)).
Proof.
  intros Hn Hs Hd Ht; bindings.
  erewrite probeERC20_satisfied by eassumption; cbn [fst snd].
  rewrite recordERC20_isERC20; cbn. reflexivity.
Qed.

(** The fungible candidate failed: the verdict is the second probe's. *)
Lemma classify_not_fungible (ci : ContractInfo) :
  erc20Failed viem w a = true -> isERC20 ci = false ->
  Server.classify viem w a ci =
    (reads20 viem a ++ Async.effects (Server.probeERC721 viem w a ci),
     Async.outcome (Server.probeERC721 viem w a ci)).
Proof.
  intros Hf Hci; bindings.
  rewrite probeERC20_failed by assumption; cbn. rewrite Hci; reflexivity.
Qed.

Lemma classify_never_rejects (ci : ContractInfo) :
  rejected (Async.outcome (Server.classify viem w a ci)) = false.
Proof.
  bindings.
  pose proof (probeERC20_never_rejects viem w a ci) as H20.
  unfold Async.outcome in H20.
  destruct (snd (Server.probeERC20 viem w a ci)) as [ci' | e |]; cbn in *;
    try discriminate; auto.
  destruct (isERC20 ci'); cbn; auto.
  apply probeERC721_never_rejects.
Qed.


(** No code: the balance is read and nothing else. *)
Lemma inspect_account bytecode :
  getBytecode w (target viem a) = Resolved bytecode ->
  Server.deployedCode bytecode = None ->
  Server.inspect viem w a =
    (chainReads viem a,
     match getBalance w (target viem a) with
     | Resolved wei => Resolved (Server.withBalance Server.initialInfo (formatEther viem wei))
     | Rejected e => Rejected e
     | Pending => Pending
     end).
Proof.
  unfold target, chainReads; intros Hb Hc; bindings; cbn.
  rewrite Hb, Hc; cbn.
  destruct (getBalance w (getAddress viem a)); reflexivity.
Qed.

(** Code: size, balance, then the classifier. *)
Lemma inspect_contract bytecode code wei :
  getBytecode w (target viem a) = Resolved bytecode ->
  Server.deployedCode bytecode = Some code ->
  getBalance w (target viem a) = Resolved wei ->
  let ci := Server.withBalance (Server.withCode Server.initialInfo (Server.sizeOf code))
                               (formatEther viem wei) in
  Server.inspect viem w a =
    (chainReads viem a ++ Async.effects (Server.classify viem w a ci),
     Async.outcome (Server.classify viem w a ci)).
Proof.
  intros Hb Hc Hw ci; unfold target, chainReads in *.
  unfold Server.inspect, Server.readBytecode, Server.readBalance, Async.bind, Async.call,
    Async.ret, Async.outcome, Async.effects; cbn.
  rewrite Hb; cbn. rewrite Hc, Hw; cbn. fold ci.
  destruct (snd (Server.classify viem w a ci)); reflexivity.
Qed.

(** The pre-flight check throws before anything is started. *)
Lemma getContractSource_invalid :
  isAddress viem a = false ->
  Server.getContractSource viem w a =
    ([], Resolved (FailedToAnalyze "Invalid contract address format")).
Proof.
  intros Hv.
  unfold Server.getContractSource, Server.analyze, Async.catch, Async.bind, Async.throw.
  rewrite Hv; reflexivity.
Qed.

(** A valid address whose registry lookup settled with [sourceCodeData]. *)
Lemma getContractSource_valid effects sourceCodeData :
  isAddress viem a = true ->
  Server.fetchSourceCode w a = (effects, Resolved sourceCodeData) ->
  Server.getContractSource viem w a =
    (effects ++ Async.effects (Server.inspect viem w a),
     match Async.outcome (Server.inspect viem w a) with
     | Resolved ci => Resolved (Analysis (Server.buildResponse a ci sourceCodeData))
     | Rejected e => Resolved (FailedToAnalyze e)
     | Pending => Pending
     end).
Proof.
  intros Hv Hf.
  unfold Server.getContractSource, Server.analyze, Async.catch, Async.bind, Async.ret,
    Async.throw, Async.outcome, Async.effects.
  rewrite Hv, Hf; cbn.
  destruct (snd (Server.inspect viem w a)); cbn; rewrite ?app_nil_r; reflexivity.
Qed.

Lemma getContractSource_pending_registry :
  isAddress viem a = true -> registrySettles w a = false ->
  Server.getContractSource viem w a = ([Fetch (Server.apiUrl a)], Pending).
Proof.
  intros Hv Hr.
  unfold Server.getContractSource, Server.analyze, Async.catch, Async.bind, Async.ret,
    Async.throw.
  rewrite Hv, fetchSourceCode_pending by assumption; reflexivity.
Qed.

(** When the registry settles, the lookup has a value. *)
Lemma fetchSourceCode_value :
  registrySettles w a = true ->
  exists sourceCodeData,
    Server.fetchSourceCode w a =
      (Async.effects (Server.fetchSourceCode w a), Resolved sourceCodeData).
Proof.
  intros Hr.
  pose proof (fetchSourceCode_settles w a) as Hs.
  pose proof (fetchSourceCode_never_rejects w a) as Hn.
  unfold Async.outcome, Async.effects in *.
  destruct (Server.fetchSourceCode w a) as [t [v | e |]]; cbn in *.
  - exists v; reflexivity.
  - discriminate.
  - congruence.
Qed.

(** The classifier only reads the contract. *)
Lemma classify_reads_only (ci : ContractInfo) :
  forallb isReadContract (Async.effects (Server.classify viem w a ci)) = true.
Proof.
  bindings.
  pose proof (probeERC20_effects viem w a ci) as H20.
  pose proof (probeERC20_never_rejects viem w a ci) as Hn.
  unfold Async.effects, Async.outcome in *.
  destruct (Server.probeERC20 viem w a ci) as [t [ci' | e |]]; cbn in *; subst t;
    try reflexivity.
  destruct (isERC20 ci'); cbn; try reflexivity.
  apply probeERC721_reads_only.
Qed.

Lemma classify_keeps_account (ci ci' : ContractInfo) :
  Async.outcome (Server.classify viem w a ci) = Resolved ci' -> sameAccount ci ci'.
Proof.
  bindings.
  pose proof (probeERC20_keeps_account viem w a ci) as H20.
  unfold Async.outcome in H20.
  destruct (snd (Server.probeERC20 viem w a ci)) as [ci1 | e |]; cbn;
    try discriminate.
  specialize (H20 ci1 eq_refl).
  destruct (isERC20 ci1); cbn.
  - intros H; inversion H; subst; assumption.
  - intros H. apply probeERC721_keeps_account in H.
    unfold sameAccount in *. intuition congruence.
Qed.

(** With settled answers the classifier has a verdict. *)
Lemma classify_settles (ci : ContractInfo) :
  probesSettle viem w a = true -> isERC20 ci = false ->
  exists ci', Async.outcome (Server.classify viem w a ci) = Resolved ci'.
Proof.
  intros Hs Hci.
  destruct (settled_erc20 viem w a Hs) as [Hf | (n & s & d & t & Hn & Hsy & Hd & Ht)].
  - rewrite classify_not_fungible by assumption; cbn.
    destruct (settled_erc721 viem w a Hs) as (H1 & H2 & H3).
    destruct (supports721 viem w a) as [[|] | e |] eqn:Hsup; try discriminate H1.
    + erewrite probeERC721_declared by eassumption; eexists; reflexivity.
    + erewrite probeERC721_denied by eassumption; eexists; reflexivity.
    + erewrite probeERC721_failed by eassumption; eexists; reflexivity.
  - erewrite classify_fungible by eassumption; eexists; reflexivity.
Qed.

(** The analysis of an address with code, once the registry has settled. *)
Lemma getContractSource_contract bytecode code wei :
  isAddress viem a = true -> registrySettles w a = true ->
  getBytecode w (target viem a) = Resolved bytecode ->
  Server.deployedCode bytecode = Some code ->
  getBalance w (target viem a) = Resolved wei ->
  let ci := Server.withBalance (Server.withCode Server.initialInfo (Server.sizeOf code))
                               (formatEther viem wei) in
  exists sourceCodeData,
    Async.outcome (Server.fetchSourceCode w a) = Resolved sourceCodeData /\
    Server.getContractSource viem w a =
      (Async.effects (Server.fetchSourceCode w a) ++ chainReads viem a
         ++ Async.effects (Server.classify viem w a ci),
       match Async.outcome (Server.classify viem w a ci) with
       | Resolved ci' => Resolved (Analysis (Server.buildResponse a ci' sourceCodeData))
       | Rejected e => Resolved (FailedToAnalyze e)
       | Pending => Pending
       end).
Proof.
  intros Hv Hr Hb Hc Hw ci.
  destruct (fetchSourceCode_value Hr) as [scd Hscd].
  exists scd; split; [rewrite Hscd; reflexivity|].
  rewrite (getContractSource_valid _ _ Hv Hscd).
  rewrite (inspect_contract _ _ _ Hb Hc Hw); reflexivity.
Qed.

(** The analysis of an address without code, once the registry has settled. *)
Lemma getContractSource_account bytecode :
  isAddress viem a = true -> registrySettles w a = true ->
  getBytecode w (target viem a) = Resolved bytecode ->
  Server.deployedCode bytecode = None ->
  Server.getContractSource viem w a =
    (Async.effects (Server.fetchSourceCode w a) ++ chainReads viem a,
     match getBalance w (target viem a) with
     | Resolved wei => Resolved (Analysis (NotAContract a (formatEther viem wei)))
     | Rejected e => Resolved (FailedToAnalyze e)
     | Pending => Pending
     end).
Proof.
  intros Hv Hr Hb Hc.
  destruct (fetchSourceCode_value Hr) as [scd Hscd].
  rewrite (getContractSource_valid _ _ Hv Hscd).
  rewrite (inspect_account _ Hb Hc); cbn.
  destruct (getBalance w (target viem a)); reflexivity.
Qed.

Lemma reads_are_no_code_reads (l : list Effect) :
  forallb isReadContract l = true ->
  filter isGetBytecode l = [] /\ filter isFetch l = [].
Proof.
  induction l as [| ev l IH]; cbn; [auto|].
  intros H; apply andb_true_iff in H; destruct H as [Hev Hl].
  destruct ev; try discriminate Hev; cbn; auto.
Qed.

(** Kind resolution opens the chain reads: the code is read first, once,
    and no registry request follows it. *)
Lemma inspect_effects :
  exists rest,
    Async.effects (Server.inspect viem w a) = GetBytecode (target viem a) :: rest /\
    filter isGetBytecode rest = [] /\ filter isFetch rest = [].
Proof.
  unfold Server.inspect, Server.readBytecode, Server.readBalance, Async.bind, Async.call,
    Async.ret, Async.effects, target; cbn.
  destruct (getBytecode w (getAddress viem a)) as [bytecode | e |]; cbn;
    try (exists []; repeat split; reflexivity).
  destruct (Server.deployedCode bytecode) as [code |]; cbn;
    destruct (getBalance w (getAddress viem a)) as [wei | e |]; cbn;
    try (eexists; repeat split; reflexivity).
  match goal with
  | |- context [Server.classify viem w a ?ci] =>
      pose proof (reads_are_no_code_reads _ (classify_reads_only ci)) as [H1 H2];
      unfold Async.effects in *;
      destruct (Server.classify viem w a ci) as [t [ci' | e |]]
  end; cbn in *; eexists; repeat split; cbn; eauto.
Qed.

(** The effects of a request: the registry lookup, then, once it has
    settled, the chain reads. *)
Lemma getContractSource_effects :
  isAddress viem a = true ->
  Async.effects (Server.getContractSource viem w a) =
    Async.effects (Server.fetchSourceCode w a)
      ++ (if registrySettles w a then Async.effects (Server.inspect viem w a) else []).
Proof.
  intros Hv.
  destruct (registrySettles w a) eqn:Hr.
  - destruct (fetchSourceCode_value Hr) as [scd Hscd].
    rewrite (getContractSource_valid _ _ Hv Hscd); reflexivity.
  - rewrite (getContractSource_pending_registry Hv Hr).
    rewrite (fetchSourceCode_pending w a Hr); reflexivity.
Qed.

End Assembly.

(* ================================================================== *)
(** ** Properties of the analysis *)




(** C3. An address string that the validity check refuses makes the analysis
    fail with the invalid-address message, and no effect at all has been
    issued by then: neither the chain client nor the registry is called. *)
Theorem invalid_address_fails_before_any_call (viem : Viem) (w : World) (a : string) :
  isAddress viem a = false ->
  Server.getContractSource viem w a =
    ([], Resolved (FailedToAnalyze "Invalid contract address format")).
Proof. apply getContractSource_invalid. Qed.

Lemma invalid_address_fails_before_any_call_witness :
  isAddress Sample.viem "0x12zz" = false /\
  Server.getContractSource Sample.viem Sample.hybridToken "0x12zz" =
    ([], Resolved (FailedToAnalyze "Invalid contract address format")).
Proof.
  split; [reflexivity|].
  apply (invalid_address_fails_before_any_call Sample.viem Sample.hybridToken "0x12zz").
  reflexivity.
Defined.



Lemma registry_effects_never_declare (w : World) (a : string) :
  existsb isSupportsInterface (Async.effects (Server.fetchSourceCode w a)) = false.
Proof. destruct (fetchSourceCode_effects w a) as [H | H]; rewrite H; reflexivity. Qed.

(** The analysis of a contract whose four fungible reads resolved. *)
Lemma getContractSource_fungible_reads
      (viem : Viem) (w : World) (a : string) (bytecode : option string) (code : string)
      (wei : Z) (n s : string) (d t : Z) :
  isAddress viem a = true -> registrySettles w a = true ->
  getBytecode w (target viem a) = Resolved bytecode ->
  Server.deployedCode bytecode = Some code ->
  getBalance w (target viem a) = Resolved wei ->
  name20 viem w a = Resolved n -> symbol20 viem w a = Resolved s ->
  decimals20 viem w a = Resolved d -> totalSupply20 viem w a = Resolved t ->
  exists sourceCodeData,
    Async.outcome (Server.fetchSourceCode w a) = Resolved sourceCodeData /\
    Server.getContractSource viem w a =
      (Async.effects (Server.fetchSourceCode w a) ++ chainReads viem a ++ reads20 viem a,
       Resolved (Analysis
         (Server.buildResponse a
            (Server.recordERC20 viem (beforeProbes viem code wei) n s d t)
            sourceCodeData))) /\
    existsb isSupportsInterface (Async.effects (Server.getContractSource viem w a)) = false.
Proof.
  intros Hv Hr Hb Hc Hw Hn Hs Hd Ht.
  destruct (getContractSource_contract viem w a bytecode code wei Hv Hr Hb Hc Hw)
    as (scd & Hscd & Hrun).
  rewrite (classify_fungible viem w a _ n s d t Hn Hs Hd Ht) in Hrun.
  exists scd; split; [assumption|].
  split; [exact Hrun|].
  rewrite Hrun; unfold Async.effects; cbn [fst].
  rewrite existsb_app.
  pose proof (registry_effects_never_declare w a) as H; unfold Async.effects in H.
  rewrite H; reflexivity.
Qed.

(** C2.  The code departs from the claim where the total supply cannot be
    formatted: when the four functions of the fungible candidate all
    succeed but [formatUnits] throws on the supply and the decimals read,
    the classifier leaves [isERC20] set without token information, the
    non-fungible interface is never read, and the report shows the
    unknown-type section instead of the fungible one. *)
Theorem unformattable_supply_loses_the_fungible_section
        (viem : Viem) (w : World) (a : string) (bytecode : option string) (code : string)
        (wei : Z) (n s : string) (d t : Z) (e : Err) :
  isAddress viem a = true -> registrySettles w a = true ->
  getBytecode w (target viem a) = Resolved bytecode ->
  Server.deployedCode bytecode = Some code ->
  getBalance w (target viem a) = Resolved wei ->
  name20 viem w a = Resolved n -> symbol20 viem w a = Resolved s ->
  decimals20 viem w a = Resolved d -> totalSupply20 viem w a = Resolved t ->
  formatUnits viem t d = inl e ->
  Async.outcome (Server.classify viem w a (beforeProbes viem code wei))
    = Resolved (Server.markERC20 (beforeProbes viem code wei)) /\
  exists sourceCodeData,
    Async.outcome (Server.fetchSourceCode w a) = Resolved sourceCodeData /\
    Server.getContractSource viem w a =
      (Async.effects (Server.fetchSourceCode w a) ++ chainReads viem a ++ reads20 viem a,
       Resolved (Analysis
         (ContractInformation a (formatEther viem wei) (Server.sizeOf code)
            UnknownType (Server.sourceSection sourceCodeData)))) /\
    existsb isSupportsInterface (Async.effects (Server.getContractSource viem w a)) = false.
Proof.
  intros Hv Hr Hb Hc Hw Hn Hs Hd Ht He.
  split.
  - rewrite (classify_fungible viem w a _ n s d t Hn Hs Hd Ht).
    unfold Async.outcome, Server.recordERC20; cbn [snd]. rewrite He; reflexivity.
  - destruct (getContractSource_fungible_reads viem w a bytecode code wei n s d t
                Hv Hr Hb Hc Hw Hn Hs Hd Ht) as (scd & Hscd & Hrun & Hno).
    exists scd. split; [exact Hscd|]. split; [|exact Hno].
    rewrite Hrun. unfold Server.recordERC20. rewrite He. reflexivity.
Qed.

Lemma unformattable_supply_loses_the_fungible_section_witness :
  (decimals20 Sample.viem Bench.oddToken Sample.addr = Resolved (2 ^ 40)%Z /\
   formatUnits Sample.viem (2 ^ 40) (2 ^ 40) = inl "Invalid string length" /\
   erc721Satisfied Sample.viem Bench.oddToken Sample.addr = true) /\
  exists sourceCodeData,
    Async.outcome (Server.getContractSource Sample.viem Bench.oddToken Sample.addr) =
      Resolved (Analysis
        (ContractInformation Sample.addr "0" (4 # 2) UnknownType
           (SourceVerified sourceCodeData))).
Proof.
  split; [repeat split|].
  destruct (unformattable_supply_loses_the_fungible_section
              Sample.viem Bench.oddToken Sample.addr
              (Some "0x6080") "0x6080" 0 "Token" "Token" (2 ^ 40) (2 ^ 40)
              "Invalid string length"
              eq_refl eq_refl eq_refl eq_refl eq_refl eq_refl eq_refl eq_refl eq_refl
              eq_refl)
    as (_ & scd & Hscd & Hrun & _).
  exists scd. rewrite Hrun. cbn in Hscd. inversion Hscd; subst. reflexivity.
Defined.

(** C4. No probe rejects, whatever the probed functions answer: a failed
    function is absorbed inside the probe.  The fungible probe issues all
    four of its reads and the non-fungible probe, once the interface is
    declared, both of its metadata reads, whichever of them fail.  When a
    fungible function failed and the interface declaration failed or was
    denied, the classifier returns the contract information untouched (no
    candidate, no token fields) and the request completes with the report of
    a contract of unknown type. *)
Theorem probe_failures_stay_local (viem : Viem) (w : World) (a : string) :
  (forall ci,
      rejected (Async.outcome (Server.probeERC20 viem w a ci)) = false /\
      rejected (Async.outcome (Server.probeERC721 viem w a ci)) = false /\
      rejected (Async.outcome (Server.classify viem w a ci)) = false /\
      Async.effects (Server.probeERC20 viem w a ci) = reads20 viem a /\
      (supports721 viem w a = Resolved true ->
       Async.effects (Server.probeERC721 viem w a ci)
         = readSupports viem a :: reads721 viem a)) /\
  (forall bytecode code wei,
      isAddress viem a = true -> registrySettles w a = true ->
      getBytecode w (target viem a) = Resolved bytecode ->
      Server.deployedCode bytecode = Some code ->
      getBalance w (target viem a) = Resolved wei ->
      erc20Failed viem w a = true ->
      settled (supports721 viem w a) = true -> erc721Satisfied viem w a = false ->
      Async.outcome (Server.classify viem w a (beforeProbes viem code wei))
        = Resolved (beforeProbes viem code wei) /\
      tokenInfo (beforeProbes viem code wei) = None /\
      exists sourceCodeData,
        Async.outcome (Server.fetchSourceCode w a) = Resolved sourceCodeData /\
        Async.outcome (Server.getContractSource viem w a) =
          Resolved (Analysis
            (ContractInformation a (formatEther viem wei) (Server.sizeOf code)
               UnknownType (Server.sourceSection sourceCodeData)))).
Proof.
  split.
  - intros ci. repeat split.
    + apply probeERC20_never_rejects.
    + apply probeERC721_never_rejects.
    + apply classify_never_rejects.
    + apply probeERC20_effects.
    + apply probeERC721_declared_effects.
  - intros bytecode code wei Hv Hr Hb Hc Hw Hf Hs Hn.
    assert (Hcl : Async.outcome (Server.classify viem w a (beforeProbes viem code wei))
                  = Resolved (beforeProbes viem code wei)).
    { rewrite classify_not_fungible by (assumption || reflexivity).
      unfold Async.outcome; cbn [snd].
      unfold erc721Satisfied in Hn.
      destruct (supports721 viem w a) as [[|] | e |] eqn:Hsup; try discriminate.
      - rewrite probeERC721_denied by assumption; reflexivity.
      - rewrite (probeERC721_failed viem w a _ e) by assumption; reflexivity. }
    split; [exact Hcl|]. split; [reflexivity|].
    destruct (getContractSource_contract viem w a bytecode code wei Hv Hr Hb Hc Hw)
      as (scd & Hscd & Hrun).
    exists scd. split; [exact Hscd|].
    rewrite Hrun. unfold Async.outcome at 1; cbn [snd].
    fold (beforeProbes viem code wei). rewrite Hcl. reflexivity.
Qed.

Lemma probe_failures_stay_local_witness :
  let w := Sample.token ["decimals"; "supportsInterface"] (Resolved Sample.unverified) in
  (erc20Failed Sample.viem w Sample.addr = true /\
   erc721Satisfied Sample.viem w Sample.addr = false) /\
  Async.outcome (Server.getContractSource Sample.viem w Sample.addr) =
    Resolved (Analysis
      (ContractInformation Sample.addr "0" (4 # 2) UnknownType SourceNotVerified)).
Proof.
  intros w. split; [split; reflexivity|].
  destruct (proj2 (probe_failures_stay_local Sample.viem w Sample.addr)
                  (Some "0x6080") "0x6080" 0%Z
                  eq_refl eq_refl eq_refl eq_refl eq_refl eq_refl eq_refl eq_refl)
    as (_ & _ & scd & Hscd & Hrun).
  rewrite Hrun. cbn in Hscd. inversion Hscd; subst. reflexivity.
Defined.


(** C5. When the registry request fails in transport, answers with a
    non-success HTTP status, an unreadable body, a [status] other than
    ["1"], an empty result list or an entry without source code, the lookup
    resolves to [null] and never rejects.  The analysis then goes on as
    without a registry: a contract whose code and balance are read and whose
    probes settle gets its report, with the balance, the classifier's
    section and the source reported as not verified; an account without code
    gets its account report. *)
Theorem registry_failure_degrades_to_unverified (viem : Viem) (w : World) (a : string) :
  RegistryFailure (fetch w (Server.apiUrl a)) ->
  Async.outcome (Server.fetchSourceCode w a) = Resolved JNull /\
  (forall r, Async.outcome (Server.getContractSource viem w a) = Resolved (Analysis r) ->
             sourceVerified r = false) /\
  (forall bytecode code wei,
      isAddress viem a = true ->
      getBytecode w (target viem a) = Resolved bytecode ->
      Server.deployedCode bytecode = Some code ->
      getBalance w (target viem a) = Resolved wei ->
      probesSettle viem w a = true ->
      exists ci,
        Async.outcome (Server.classify viem w a (beforeProbes viem code wei)) = Resolved ci /\
        Async.outcome (Server.getContractSource viem w a) =
          Resolved (Analysis
            (ContractInformation a (formatEther viem wei) (Server.sizeOf code)
               (Server.tokenSection ci) SourceNotVerified))) /\
  (forall bytecode wei,
      isAddress viem a = true ->
      getBytecode w (target viem a) = Resolved bytecode ->
      Server.deployedCode bytecode = None ->
      getBalance w (target viem a) = Resolved wei ->
      Async.outcome (Server.getContractSource viem w a) =
        Resolved (Analysis (NotAContract a (formatEther viem wei)))).
Proof.
  intros Hfail.
  pose proof (fetchSourceCode_failure w a Hfail) as Hnull.
  assert (Hr : registrySettles w a = true).
  { rewrite <- fetchSourceCode_settles, Hnull; reflexivity. }
  split; [exact Hnull|]. split; [|split].
  - intros r Hrun.
    destruct (isAddress viem a) eqn:Hv.
    + assert (Hf : Server.fetchSourceCode w a
                   = (Async.effects (Server.fetchSourceCode w a), Resolved JNull)).
      { unfold Async.effects, Async.outcome in *.
        destruct (Server.fetchSourceCode w a); cbn in *; congruence. }
      rewrite (getContractSource_valid viem w a _ _ Hv Hf) in Hrun.
      unfold Async.outcome in Hrun; cbn [snd] in Hrun.
      destruct (snd (Server.inspect viem w a)) as [ci | e |]; inversion Hrun; subst.
      unfold Server.buildResponse, Server.sourceSection; cbn.
      destruct (isContract ci); reflexivity.
    + rewrite (getContractSource_invalid viem w a Hv) in Hrun.
      discriminate Hrun.
  - intros bytecode code wei Hv Hb Hc Hw Hs.
    destruct (classify_settles viem w a (beforeProbes viem code wei) Hs eq_refl)
      as [ci Hci].
    exists ci; split; [exact Hci|].
    destruct (getContractSource_contract viem w a bytecode code wei Hv Hr Hb Hc Hw)
      as (scd & Hscd & Hrun).
    rewrite Hrun. unfold Async.outcome at 1; cbn [snd].
    fold (beforeProbes viem code wei). rewrite Hci.
    assert (scd = JNull) by congruence; subst scd.
    pose proof (classify_keeps_account viem w a (beforeProbes viem code wei) ci Hci)
      as (Hk1 & Hk2 & Hk3).
    unfold Server.buildResponse. rewrite Hk1, Hk2, Hk3. reflexivity.
  - intros bytecode wei Hv Hb Hc Hw.
    rewrite (getContractSource_account viem w a bytecode Hv Hr Hb Hc).
    unfold Async.outcome; cbn [snd]. rewrite Hw. reflexivity.
Qed.

Lemma registry_failure_degrades_to_unverified_witness :
  let w := Sample.token [] (Resolved Sample.emptyResult) in
  RegistryFailure (fetch w (Server.apiUrl Sample.addr)) /\
  Async.outcome (Server.getContractSource Sample.viem w Sample.addr) =
    Resolved (Analysis
      (ContractInformation Sample.addr "0" (4 # 2)
         (Erc20Detected "Token" "Token" (Some 6%Z) (Some "0")) SourceNotVerified)).
Proof.
  intros w.
  assert (Hfail : RegistryFailure (fetch w (Server.apiUrl Sample.addr))).
  { apply EmptyResult with (props := [("status", JStr "1"); ("result", JArr [])]);
      reflexivity. }
  split; [exact Hfail|].
  destruct (proj1 (proj2 (proj2 (registry_failure_degrades_to_unverified
                                   Sample.viem w Sample.addr Hfail)))
                  (Some "0x6080") "0x6080" 0%Z eq_refl eq_refl eq_refl eq_refl eq_refl)
    as (ci & Hci & Hrun).
  rewrite Hrun. cbn in Hci. inversion Hci; subst. reflexivity.
Defined.




(** C7, as stated, fails: for an account without code the registry is
    queried all the same, and before the code is read. *)
Lemma registry_is_queried_for_an_account_first :
  Server.getContractSource Sample.viem Sample.account Sample.addr =
    ([Fetch (Server.apiUrl Sample.addr); GetBytecode Sample.addr; GetBalance Sample.addr],
     Resolved (Analysis (NotAContract Sample.addr "5"))).
Proof. reflexivity. Qed.

(** C7, amended.  Every analysis of a valid address follows the sequence
    validate, registry lookup, resolve kind: the registry request is the
    first effect, followed by nothing but its log line; the code read comes
    after it, once the lookup has settled, and no further registry request
    follows.  For an account without code the balance is then read and the
    report carries neither a classification nor a verification, whatever the
    registry answered. *)
Theorem registry_lookup_precedes_kind_resolution (viem : Viem) (w : World) (a : string) :
  isAddress viem a = true ->
  Async.effects (Server.getContractSource viem w a) =
    Async.effects (Server.fetchSourceCode w a)
      ++ (if registrySettles w a then Async.effects (Server.inspect viem w a) else []) /\
  (exists log, Async.effects (Server.fetchSourceCode w a) = Fetch (Server.apiUrl a) :: log /\
               filter isNetworkCall log = []) /\
  (exists rest, Async.effects (Server.inspect viem w a) = GetBytecode (target viem a) :: rest /\
                filter isFetch rest = []) /\
  (forall bytecode wei,
      registrySettles w a = true ->
      getBytecode w (target viem a) = Resolved bytecode ->
      Server.deployedCode bytecode = None ->
      getBalance w (target viem a) = Resolved wei ->
      exists r,
        Server.getContractSource viem w a =
          (Async.effects (Server.fetchSourceCode w a) ++ chainReads viem a,
           Resolved (Analysis r)) /\
        r = NotAContract a (formatEther viem wei) /\
        classification r = None /\ verification r = None).
Proof.
  intros Hv. split; [|split; [|split]].
  - apply getContractSource_effects; assumption.
  - destruct (fetchSourceCode_effects w a) as [H | H]; rewrite H;
      eexists; split; reflexivity.
  - destruct (inspect_effects viem w a) as (rest & H1 & _ & H2).
    exists rest; auto.
  - intros bytecode wei Hr Hb Hc Hw.
    rewrite (getContractSource_account viem w a bytecode Hv Hr Hb Hc), Hw.
    eexists; repeat split.
Qed.

Lemma registry_lookup_precedes_kind_resolution_witness :
  isAddress Sample.viem Sample.addr = true /\
  Async.effects (Server.getContractSource Sample.viem Sample.account Sample.addr) =
    [Fetch (Server.apiUrl Sample.addr)]
      ++ Async.effects (Server.inspect Sample.viem Sample.account Sample.addr).
Proof.
  split; [reflexivity|].
  exact (proj1 (registry_lookup_precedes_kind_resolution
                  Sample.viem Sample.account Sample.addr eq_refl)).
Defined.











(* ================================================================== *)
(** ** Further properties of the analysis *)

Section Lookup.

Variable w : World.
Variable a : string.

Lemma fetchSourceCode_success (entry : JsVal) :
  RegistrySuccess (fetch w (Server.apiUrl a)) entry ->
  Server.fetchSourceCode w a = ([Fetch (Server.apiUrl a)], Resolved entry).
Proof.
  unfold Server.fetchSourceCode, Async.catch, Async.bind, Async.call, Async.await.
  destruct 1 as [r props fields Hok Hj Hs Hr Ht].
  cbn. rewrite Hok; cbn. rewrite Hj; cbn. rewrite Hs; cbn.
  destruct (lookup "result" props) as [| | b | q | [| c s] | items | ps];
    cbn in Hr; try discriminate Hr; cbn; rewrite Hr; cbn; rewrite Ht; reflexivity.
Qed.

Lemma fetchSourceCode_truthy (v : JsVal) :
  Async.outcome (Server.fetchSourceCode w a) = Resolved v -> truthy v = true ->
  RegistrySuccess (fetch w (Server.apiUrl a)) v.
Proof.
  unfold Server.fetchSourceCode, Async.catch, Async.bind, Async.call, Async.await,
    Async.outcome.
  destruct (fetch w (Server.apiUrl a)) as [[okay body] | e |]; cbn;
    [| intros H; inversion H; subst; discriminate | discriminate].
  destruct okay; cbn; [| intros H; inversion H; subst; discriminate].
  destruct body as [data | e |]; cbn;
    [| intros H; inversion H; subst; discriminate | discriminate].
  destruct data as [| | b | q | s | items | props]; cbn;
    try (intros H; inversion H; subst; discriminate).
  destruct (strictEqStr (lookup "status" props) "1") eqn:Hs; cbn;
    [| intros H; inversion H; subst; discriminate].
  destruct (lookup "result" props) as [| | b | q | [| c s] | items | ps] eqn:Hr; cbn;
    try (intros H; inversion H; subst; discriminate).
  - destruct (hd JUndefined items) as [| | b | q | s | items' | fields] eqn:Hh; cbn;
      try (intros H; inversion H; subst; discriminate).
    destruct (truthy (lookup "SourceCode" fields)) eqn:Ht; cbn;
      intros H; inversion H; subst; try discriminate.
    intros _. eapply SourceFound with (props := props); try reflexivity; try assumption.
    rewrite Hr; exact Hh.
  - destruct (lookup "0" ps) as [| | b | q | s | items' | fields] eqn:Hh; cbn;
      try (intros H; inversion H; subst; discriminate).
    destruct (truthy (lookup "SourceCode" fields)) eqn:Ht; cbn;
      intros H; inversion H; subst; try discriminate.
    intros _. eapply SourceFound with (props := props); try reflexivity; try assumption.
    rewrite Hr; exact Hh.
Qed.

End Lookup.

(** X1. The lookup yields a source exactly when the registry answers with a
    success status, [status] ["1"] and a first result carrying a non-empty
    [SourceCode]: then it resolves to that entry after the one request and
    without a log line, and a contract whose reads succeed is reported with
    that entry as its verified source. *)
Theorem verified_source_is_reported (viem : Viem) (w : World) (a : string) :
  (forall v, Async.outcome (Server.fetchSourceCode w a) = Resolved v -> truthy v = true ->
             RegistrySuccess (fetch w (Server.apiUrl a)) v) /\
  (forall entry,
      RegistrySuccess (fetch w (Server.apiUrl a)) entry ->
      Server.fetchSourceCode w a = ([Fetch (Server.apiUrl a)], Resolved entry) /\
      forall bytecode code wei,
        isAddress viem a = true ->
        getBytecode w (target viem a) = Resolved bytecode ->
        Server.deployedCode bytecode = Some code ->
        getBalance w (target viem a) = Resolved wei ->
        probesSettle viem w a = true ->
        exists token,
          Async.outcome (Server.getContractSource viem w a) =
            Resolved (Analysis
              (ContractInformation a (formatEther viem wei) (Server.sizeOf code) token
                 (SourceVerified entry)))).
Proof.
  split; [apply fetchSourceCode_truthy|].
  intros entry Hok.
  pose proof (fetchSourceCode_success w a entry Hok) as Hf.
  split; [exact Hf|].
  intros bytecode code wei Hv Hb Hc Hw Hs.
  rewrite (getContractSource_valid viem w a _ _ Hv Hf).
  rewrite (inspect_contract viem w a _ _ wei Hb Hc Hw).
  unfold Async.outcome; cbn [snd]. fold (beforeProbes viem code wei).
  destruct (classify_settles viem w a (beforeProbes viem code wei) Hs eq_refl) as [ci Hci].
  unfold Async.outcome in Hci. rewrite Hci.
  destruct (classify_keeps_account viem w a _ ci Hci) as (Hk1 & Hk2 & Hk3).
  exists (Server.tokenSection ci).
  unfold Server.buildResponse, Server.sourceSection. rewrite Hk1, Hk2, Hk3.
  destruct Hok; reflexivity.
Qed.

Lemma verified_source_is_reported_witness :
  RegistrySuccess (fetch Sample.hybridToken (Server.apiUrl Sample.addr))
    (JObj [("SourceCode", JStr "contract T {}"); ("ContractName", JStr "T");
           ("CompilerVersion", JStr "v0.8.24"); ("OptimizationUsed", JStr "1");
           ("Runs", JStr "200")]) /\
  exists token entry,
    Async.outcome (Server.getContractSource Sample.viem Sample.hybridToken Sample.addr) =
      Resolved (Analysis
        (ContractInformation Sample.addr "0" (4 # 2) token (SourceVerified entry))).
Proof.
  assert (Hok : RegistrySuccess (fetch Sample.hybridToken (Server.apiUrl Sample.addr))
                  (JObj [("SourceCode", JStr "contract T {}"); ("ContractName", JStr "T");
                         ("CompilerVersion", JStr "v0.8.24");
                         ("OptimizationUsed", JStr "1"); ("Runs", JStr "200")])).
  { eapply SourceFound; reflexivity. }
  split; [exact Hok|].
  destruct (proj2 (proj2 (verified_source_is_reported Sample.viem Sample.hybridToken
                            Sample.addr) _ Hok)
                  (Some "0x6080") "0x6080" 0%Z eq_refl eq_refl eq_refl eq_refl eq_refl)
    as [token Hrun].
  exists token; eexists; exact Hrun.
Defined.

(** X2. A chain read that fails ends the analysis with the failure text of
    that error, whatever the registry answered.  A failed code read is the
    last call of the request; a failed balance read is too, also for an
    address with code: no contract function is probed after it. *)
Theorem chain_failure_ends_the_analysis (viem : Viem) (w : World) (a : string) :
  isAddress viem a = true -> registrySettles w a = true ->
  (forall e, getBytecode w (target viem a) = Rejected e ->
             Server.getContractSource viem w a =
               (Async.effects (Server.fetchSourceCode w a) ++ [GetBytecode (target viem a)],
                Resolved (FailedToAnalyze e))) /\
  (forall bytecode e,
      getBytecode w (target viem a) = Resolved bytecode ->
      getBalance w (target viem a) = Rejected e ->
      Server.getContractSource viem w a =
        (Async.effects (Server.fetchSourceCode w a) ++ chainReads viem a,
         Resolved (FailedToAnalyze e))).
Proof.
  intros Hv Hr.
  destruct (fetchSourceCode_value w a Hr) as [scd Hscd].
  rewrite (getContractSource_valid viem w a _ _ Hv Hscd).
  unfold Server.inspect, Server.readBytecode, Server.readBalance, Async.bind, Async.call,
    Async.ret, Async.outcome, Async.effects, chainReads, target; cbn.
  split.
  - intros e He. rewrite He; reflexivity.
  - intros bytecode e Hb Hw. rewrite Hb; cbn.
    destruct (Server.deployedCode bytecode); cbn; rewrite Hw; reflexivity.
Qed.

Lemma chain_failure_ends_the_analysis_witness :
  let w := {| fetch := fun _ => Resolved Sample.verified;
              getBytecode := fun _ => Resolved (Some "0x6080");
              getBalance := fun _ => Rejected "HTTP request failed";
              readContract := readContract Sample.hybridToken |} in
  (isAddress Sample.viem Sample.addr = true /\ registrySettles w Sample.addr = true) /\
  Server.getContractSource Sample.viem w Sample.addr =
    ([Fetch (Server.apiUrl Sample.addr); GetBytecode Sample.addr; GetBalance Sample.addr],
     Resolved (FailedToAnalyze "HTTP request failed")).
Proof.
  intros w. split; [split; reflexivity|].
  exact (proj2 (chain_failure_ends_the_analysis Sample.viem w Sample.addr eq_refl eq_refl)
               (Some "0x6080") "HTTP request failed" eq_refl eq_refl).
Defined.

Section Budget.

Variable viem : Viem.
Variable w : World.
Variable a : string.

Lemma probeERC721_effects_length (ci : ContractInfo) :
  (length (Async.effects (Server.probeERC721 viem w a ci)) <= 3)%nat.
Proof.
  unfold Server.probeERC721, Server.erc721Metadata, Server.read, Async.both, Async.catch,
    Async.bind, Async.call, Async.ret, Async.effects; cbn.
  destruct (readContract w (getAddress viem a) Server.erc721Abi "supportsInterface"
                         [ArgBytes4 Server.erc721InterfaceId]) as [[|] | |];
  destruct (readContract w (getAddress viem a) Server.erc721Abi "name" []);
  destruct (readContract w (getAddress viem a) Server.erc721Abi "symbol" []);
  cbn; lia.
Qed.

Lemma classify_effects_length (ci : ContractInfo) :
  (length (Async.effects (Server.classify viem w a ci)) <= 7)%nat.
Proof.
  unfold Server.classify, Async.bind, Async.ret.
  pose proof (probeERC20_effects viem w a ci) as H20.
  unfold Async.effects in *.
  destruct (Server.probeERC20 viem w a ci) as [t [ci' | e |]]; cbn in *; subst t;
    try (cbn; lia).
  destruct (isERC20 ci'); cbn; try lia.
  pose proof (probeERC721_effects_length ci'). unfold Async.effects in *. lia.
Qed.

Lemma inspect_effects_length :
  (length (Async.effects (Server.inspect viem w a)) <= 9)%nat.
Proof.
  unfold Server.inspect, Server.readBytecode, Server.readBalance, Async.bind, Async.call,
    Async.ret, Async.effects; cbn.
  destruct (getBytecode w (getAddress viem a)) as [bytecode | e |]; cbn; try lia.
  destruct (Server.deployedCode bytecode) as [code |]; cbn;
    destruct (getBalance w (getAddress viem a)) as [wei | e |]; cbn; try lia.
  match goal with
  | |- context [Server.classify viem w a ?ci] =>
      pose proof (classify_effects_length ci) as H; unfold Async.effects in H
  end.
  rewrite ?length_app; cbn in *. lia.
Qed.

End Budget.

(** X3. One analysis issues at most eleven effects: a single registry
    request, at most one log line, and at most nine chain reads; nothing is
    retried. *)
Theorem analysis_call_budget (viem : Viem) (w : World) (a : string) :
  (length (filter isFetch (Async.effects (Server.getContractSource viem w a))) <= 1)%nat /\
  (length (filter isNetworkCall (Async.effects (Server.getContractSource viem w a))) <= 10)%nat /\
  (length (Async.effects (Server.getContractSource viem w a)) <= 11)%nat.
Proof.
  destruct (isAddress viem a) eqn:Hv.
  - rewrite (getContractSource_effects viem w a Hv).
    destruct (inspect_effects viem w a) as (rest & Hi & _ & Hnf).
    pose proof (inspect_effects_length viem w a) as Hlen.
    assert (Hin : (length (filter isNetworkCall
                     (if registrySettles w a
                      then Async.effects (Server.inspect viem w a) else [])) <= 9)%nat).
    { destruct (registrySettles w a); cbn; [|lia].
      eapply Nat.le_trans; [apply filter_length_le | exact Hlen]. }
    assert (Hif : filter isFetch
                    (if registrySettles w a
                     then Async.effects (Server.inspect viem w a) else []) = []).
    { destruct (registrySettles w a); cbn; [|reflexivity].
      rewrite Hi; cbn. exact Hnf. }
    assert (Hil : (length (if registrySettles w a
                           then Async.effects (Server.inspect viem w a) else []) <= 9)%nat).
    { destruct (registrySettles w a); cbn; [exact Hlen | lia]. }
    rewrite !filter_app, !length_app, Hif.
    destruct (fetchSourceCode_effects w a) as [H | H]; rewrite H; cbn; lia.
  - rewrite (getContractSource_invalid viem w a Hv); cbn. lia.
Qed.

Section Flags.

Variable viem : Viem.
Variable w : World.
Variable a : string.

Lemma erc20_trichotomy :
  (exists n s d t, name20 viem w a = Resolved n /\ symbol20 viem w a = Resolved s /\
                   decimals20 viem w a = Resolved d /\ totalSupply20 viem w a = Resolved t) \/
  erc20Failed viem w a = true \/
  (erc20Failed viem w a = false /\ erc20Satisfied viem w a = false).
Proof.
  unfold erc20Failed, erc20Satisfied, name20, symbol20, decimals20, totalSupply20, target.
  destruct (readContract w (getAddress viem a) Server.erc20Abi "name" []);
  destruct (readContract w (getAddress viem a) Server.erc20Abi "symbol" []);
  destruct (readContract w (getAddress viem a) Server.erc20Abi "decimals" []);
  destruct (readContract w (getAddress viem a) Server.erc20Abi "totalSupply" []);
  cbn; auto; left; do 4 eexists; repeat split; reflexivity.
Qed.

End Flags.

(** X4. Starting from an unclassified contract, a verdict of the classifier
    never sets both token flags.  [isERC20] is set exactly when all four
    fungible reads succeeded; [isERC721] only when one of them failed and
    the interface is declared.  Token information is missing exactly when
    neither flag is set or when [isERC20] is set and [formatUnits] threw on
    the supply read, and the report shows the unknown-type section exactly
    when it is missing. *)
Theorem classifier_flags_are_exclusive
        (viem : Viem) (w : World) (a : string) (ci ci' : ContractInfo) :
  unclassified ci ->
  Async.outcome (Server.classify viem w a ci) = Resolved ci' ->
  isERC20 ci' && isERC721 ci' = false /\
  isERC20 ci' = erc20Satisfied viem w a /\
  (isERC721 ci' = true -> erc20Failed viem w a = true /\ erc721Satisfied viem w a = true) /\
  (tokenInfo ci' = None <->
   (isERC20 ci' = false /\ isERC721 ci' = false) \/
   (isERC20 ci' = true /\ supplyUnformattable viem w a = true)) /\
  (Server.tokenSection ci' = UnknownType <-> tokenInfo ci' = None).
Proof.
  intros (H20 & H721 & Hti) Hrun.
  destruct (erc20_trichotomy viem w a)
    as [(n & s & d & t & Hn & Hs & Hd & Ht) | [Hf | [Hnf Hns]]].
  - rewrite (classify_fungible viem w a ci n s d t Hn Hs Hd Ht) in Hrun.
    unfold Async.outcome in Hrun; cbn in Hrun. inversion Hrun; subst ci'; clear Hrun.
    unfold erc20Satisfied, erc721Satisfied, supplyUnformattable, Server.tokenSection,
      Server.recordERC20.
    rewrite Hn, Hs, Hd, Ht; cbn.
    destruct (formatUnits viem t d) as [e | formatted]; cbn; rewrite ?H721, ?Hti; cbn.
    + repeat split; auto; try discriminate.
    + repeat split; try discriminate.
      intros [[H _] | [_ H]]; discriminate H.
  - assert (Hsat : erc20Satisfied viem w a = false).
    { revert Hf. unfold erc20Failed, erc20Satisfied.
      destruct (name20 viem w a), (symbol20 viem w a), (decimals20 viem w a),
        (totalSupply20 viem w a); cbn; congruence. }
    rewrite (classify_not_fungible viem w a ci Hf H20) in Hrun.
    unfold Async.outcome in Hrun; cbn [snd] in Hrun.
    rewrite Hsat. unfold erc721Satisfied.
    destruct (supports721 viem w a) as [[|] | e |] eqn:Hsup.
    + revert Hrun.
      unfold Server.probeERC721, Server.erc721Metadata, Server.read, Async.both,
        Async.catch, Async.bind, Async.call, Async.ret; cbn.
      unfold supports721, target in Hsup. rewrite Hsup; cbn.
      destruct (readContract w (getAddress viem a) Server.erc721Abi "name" []);
      destruct (readContract w (getAddress viem a) Server.erc721Abi "symbol" []);
      cbn; intros Hrun; inversion Hrun; subst ci'; unfold Server.tokenSection; cbn;
        rewrite H20; cbn;
        repeat split; auto; try discriminate;
        intros [[_ H] | [H _]]; discriminate H.
    + rewrite (probeERC721_denied viem w a ci Hsup) in Hrun; cbn in Hrun.
      inversion Hrun; subst ci'. unfold Server.tokenSection.
      rewrite H20, H721, Hti; cbn. repeat split; auto; congruence.
    + rewrite (probeERC721_failed viem w a ci e Hsup) in Hrun; cbn in Hrun.
      inversion Hrun; subst ci'. unfold Server.tokenSection.
      rewrite H20, H721, Hti; cbn. repeat split; auto; congruence.
    + revert Hrun.
      unfold Server.probeERC721, Server.read, Async.catch, Async.bind, Async.call; cbn.
      unfold supports721, target in Hsup. rewrite Hsup; cbn. discriminate.
  - unfold Server.classify, Async.bind, Async.outcome in Hrun.
    rewrite (probeERC20_pending viem w a ci Hnf Hns) in Hrun. discriminate Hrun.
Qed.

Lemma classifier_flags_are_exclusive_witness :
  let ci := beforeProbes Sample.viem "0x6080" 0 in
  unclassified ci /\
  exists ci', Async.outcome (Server.classify Sample.viem Sample.hybridToken Sample.addr ci)
                = Resolved ci' /\
              isERC20 ci' = true /\ isERC721 ci' = false.
Proof.
  intros ci. split; [repeat split|].
  eexists. split; [reflexivity|].
  pose proof (classifier_flags_are_exclusive Sample.viem Sample.hybridToken Sample.addr
                ci _ (conj eq_refl (conj eq_refl eq_refl)) eq_refl) as (Hx & H20 & _).
  split; [exact H20|].
  rewrite H20 in Hx. exact Hx.
Defined.

(** X5. The lookup writes its log line exactly for the failures it catches
    as exceptions: a request that does not get through, a body that is not
    JSON, and a success status with an empty result list are logged; an
    HTTP error status, a [status] other than ["1"] and an entry without
    source code are not. *)
Theorem registry_failures_logged (w : World) (a : string) :
  RegistryFailure (fetch w (Server.apiUrl a)) ->
  (Async.effects (Server.fetchSourceCode w a) = [Fetch (Server.apiUrl a); logged] <->
   (exists e, fetch w (Server.apiUrl a) = Rejected e) \/
   (exists response, fetch w (Server.apiUrl a) = Resolved response /\ ok response = true /\
      (rejected (json response) = true \/
       exists props, json response = Resolved (JObj props) /\
                     strictEqStr (lookup "status" props) "1" = true /\
                     lookup "result" props = JArr []))) /\
  (Async.effects (Server.fetchSourceCode w a) = [Fetch (Server.apiUrl a)] \/
   Async.effects (Server.fetchSourceCode w a) = [Fetch (Server.apiUrl a); logged]).
Proof.
  intros Hfail. split; [|apply fetchSourceCode_effects].
  unfold Server.fetchSourceCode, Async.catch, Async.bind, Async.call, Async.await,
    Async.effects, logged.
  destruct Hfail as [e | r Hok | r e Hok Hj | r props Hok Hj Hs
                     | r props Hok Hj Hs Hr | r props fields rest Hok Hj Hs Hr Ht];
    cbn; try rewrite Hok; cbn; try rewrite Hj; cbn; try rewrite Hs; cbn;
    try rewrite Hr; cbn; try rewrite Ht; cbn.
  - split; [intros _; left; eexists; reflexivity | reflexivity].
  - split; [discriminate|].
    intros [[e H] | (r' & H & Hok' & _)]; [discriminate H|].
    inversion H; subst. congruence.
  - split; [|reflexivity].
    intros _; right; exists r; repeat split; auto. left; rewrite Hj; reflexivity.
  - split; [discriminate|].
    intros [[e H] | (r' & H & _ & [Hrej | (props' & Hj' & Hs' & _)])];
      [discriminate H | |]; inversion H; subst.
    + rewrite Hj in Hrej; discriminate Hrej.
    + rewrite Hj in Hj'; inversion Hj'; subst. congruence.
  - split; [|reflexivity].
    intros _; right; exists r; repeat split; auto. right; exists props; auto.
  - split; [discriminate|].
    intros [[e H] | (r' & H & _ & [Hrej | (props' & Hj' & _ & Hr')])];
      [discriminate H | |]; inversion H; subst.
    + rewrite Hj in Hrej; discriminate Hrej.
    + rewrite Hj in Hj'; inversion Hj'; subst. congruence.
Qed.

Lemma registry_failures_logged_witness :
  let w := Sample.token [] (Resolved Sample.unverified) in
  RegistryFailure (fetch w (Server.apiUrl Sample.addr)) /\
  Async.effects (Server.fetchSourceCode w Sample.addr) = [Fetch (Server.apiUrl Sample.addr)].
Proof.
  intros w.
  assert (Hfail : RegistryFailure (fetch w (Server.apiUrl Sample.addr))).
  { eapply ApiStatus; reflexivity. }
  split; [exact Hfail|].
  destruct (proj2 (registry_failures_logged w Sample.addr Hfail)) as [H | H];
    [exact H | discriminate H].
Defined.

(* ================================================================== *)
(** ** The balance tools *)

(** X6. [get-mon-balance] never rejects.  For a string the validity check
    refuses it answers with the invalid-address failure and calls nothing;
    for a valid one it issues one balance read, on the normalised address,
    and a failure of that read is answered with the read's own message. *)
Theorem mon_balance_calls_once (viem : Viem) (w : World) (a : string) :
  rejected (Async.outcome (Tools.getMonBalance viem w a)) = false /\
  (isAddress viem a = false ->
   Tools.getMonBalance viem w a =
     ([], Resolved "Failed to retrieve balance: Invalid address format")) /\
  (isAddress viem a = true ->
   Async.effects (Tools.getMonBalance viem w a) = [GetBalance (getAddress viem a)] /\
   forall e, getBalance w (getAddress viem a) = Rejected e ->
             Async.outcome (Tools.getMonBalance viem w a) =
               Resolved ("Failed to retrieve balance: " ++ e)%string).
Proof.
  unfold Tools.getMonBalance, Async.catch, Async.bind, Async.call, Async.ret, Async.throw,
    Async.run, Async.outcome, Async.effects.
  destruct (isAddress viem a); cbn.
  - destruct (getBalance w (getAddress viem a)) as [wei | e |]; cbn;
      [destruct (formatUnits viem wei 18); cbn | |];
      (split; [reflexivity|]); (split; [discriminate|]); intros _;
      (split; [reflexivity|]); intros e' He; inversion He; reflexivity.
  - split; [reflexivity|]. split; [reflexivity|]. discriminate.
Qed.

Lemma mon_balance_calls_once_witness :
  isAddress Sample.viem Sample.addr = true /\
  Async.effects (Tools.getMonBalance Sample.viem Sample.account Sample.addr) =
    [GetBalance Sample.addr].
Proof.
  split; [reflexivity|].
  exact (proj1 (proj2 (proj2 (mon_balance_calls_once
                                Sample.viem Sample.account Sample.addr)) eq_refl)).
Defined.

(** X7. Where [formatEther] is [formatUnits] at 18 decimals, the balance in
    any report of the analysis is the one [get-mon-balance] prints for the
    same address on the same chain state. *)
Theorem analysis_and_balance_tool_agree
        (viem : Viem) (w : World) (a : string) (wei : Z) (r : Response) :
  (forall z, formatUnits viem z 18 = inr (formatEther viem z)) ->
  getBalance w (target viem a) = Resolved wei ->
  Async.outcome (Server.getContractSource viem w a) = Resolved (Analysis r) ->
  Async.outcome (Tools.getMonBalance viem w a) =
    Resolved ("Balance for " ++ a ++ ": " ++ shownBalance r ++ " MON")%string.
Proof.
  intros Hfmt Hw Hrun.
  destruct (isAddress viem a) eqn:Hv;
    [| rewrite (getContractSource_invalid viem w a Hv) in Hrun; discriminate Hrun].
  assert (Hshown : shownBalance r = formatEther viem wei).
  { destruct (registrySettles w a) eqn:Hr;
      [| rewrite (getContractSource_pending_registry viem w a Hv Hr) in Hrun;
         discriminate Hrun].
    destruct (fetchSourceCode_value w a Hr) as [scd Hscd].
    rewrite (getContractSource_valid viem w a _ _ Hv Hscd) in Hrun.
    unfold Async.outcome in Hrun; cbn [snd] in Hrun.
    destruct (getBytecode w (target viem a)) as [bytecode | e |] eqn:Hb.
    - destruct (Server.deployedCode bytecode) as [code |] eqn:Hc.
      + rewrite (inspect_contract viem w a _ _ wei Hb Hc Hw) in Hrun; cbn [snd] in Hrun.
        unfold Async.outcome in Hrun.
        destruct (snd (Server.classify viem w a _)) as [ci | e |] eqn:Hci;
          inversion Hrun; subst r.
        destruct (classify_keeps_account viem w a _ ci Hci) as (Hk1 & Hk2 & _).
        unfold Server.buildResponse. rewrite Hk1, Hk2. reflexivity.
      + rewrite (inspect_account viem w a _ Hb Hc), Hw in Hrun; cbn in Hrun.
        inversion Hrun; reflexivity.
    - revert Hrun.
      unfold Server.inspect, Server.readBytecode, Async.bind, Async.call, target in *.
      cbn. rewrite Hb; cbn. discriminate.
    - revert Hrun.
      unfold Server.inspect, Server.readBytecode, Async.bind, Async.call, target in *.
      cbn. rewrite Hb; cbn. discriminate. }
  rewrite Hshown.
  unfold Tools.getMonBalance, Async.catch, Async.bind, Async.call, Async.ret, Async.throw,
    Async.run, Async.outcome, target in *.
  rewrite Hv; cbn. rewrite Hw; cbn. rewrite Hfmt; reflexivity.
Qed.

Lemma analysis_and_balance_tool_agree_witness :
  (forall z, formatUnits Sample.viem z 18 = inr (formatEther Sample.viem z)) /\
  Async.outcome (Tools.getMonBalance Sample.viem Sample.account Sample.addr) =
    Resolved "Balance for 0x00000000000000000000000000000000000000a1: 5 MON".
Proof.
  split; [intros z; reflexivity|].
  exact (analysis_and_balance_tool_agree Sample.viem Sample.account Sample.addr
           5000000000000000000%Z (NotAContract Sample.addr "5")
           (fun z => eq_refl) eq_refl eq_refl).
Defined.

(** X8. [get-erc20-balance] checks both addresses before it reads anything:
    when the wallet or the token address is refused, it answers with the
    invalid-address failure and no call has been issued. *)
Theorem erc20_balance_checks_both_addresses
        (viem : Viem) (w : World) (address tokenAddress : string) :
  isAddress viem address = false \/ isAddress viem tokenAddress = false ->
  Server.getErc20Balance viem w address tokenAddress =
    ([], Resolved (FailedToRetrieve "Invalid address format")).
Proof.
  unfold Server.getErc20Balance, Async.catch, Async.bind, Async.throw.
  intros [H | H]; rewrite H; cbn; [reflexivity|].
  destruct (isAddress viem address); reflexivity.
Qed.

Lemma erc20_balance_checks_both_addresses_witness :
  (isAddress Sample.viem Sample.addr = true /\ isAddress Sample.viem "USDC" = false) /\
  Server.getErc20Balance Sample.viem Sample.hybridToken Sample.addr "USDC" =
    ([], Resolved (FailedToRetrieve "Invalid address format")).
Proof.
  split; [split; reflexivity|].
  apply (erc20_balance_checks_both_addresses Sample.viem Sample.hybridToken
           Sample.addr "USDC").
  right; reflexivity.
Defined.

(** X9. With two valid addresses [get-erc20-balance] starts its four reads
    whatever they answer and never rejects.  Of the reads only [balanceOf]
    can fail the request: when it is rejected the answer is the failure
    with its message, even while the other reads have not settled, and when
    it resolves a failure is answered only if [formatUnits] throws on the
    balance and the decimals, with the message it throws. *)
Theorem erc20_balance_fails_only_on_balanceOf
        (viem : Viem) (w : World) (address tokenAddress : string) :
  isAddress viem address = true -> isAddress viem tokenAddress = true ->
  Async.effects (Server.getErc20Balance viem w address tokenAddress)
    = balanceReads viem address tokenAddress /\
  rejected (Async.outcome (Server.getErc20Balance viem w address tokenAddress)) = false /\
  (forall e, balanceOfB viem w address tokenAddress = Rejected e ->
             Async.outcome (Server.getErc20Balance viem w address tokenAddress)
               = Resolved (FailedToRetrieve e)) /\
  (forall b message, balanceOfB viem w address tokenAddress = Resolved b ->
             Async.outcome (Server.getErc20Balance viem w address tokenAddress)
               = Resolved (FailedToRetrieve message) ->
             formatUnits viem b (orDefault (decimalsB viem w tokenAddress) 18%Z)
               = inl message).
Proof.
  intros Hv1 Hv2.
  unfold Server.getErc20Balance, Server.tokenReads, Server.read, Async.all4, Async.both,
    Async.catch, Async.bind, Async.call, Async.ret, Async.throw, Async.run, Async.outcome,
    Async.effects, balanceOfB, decimalsB, balanceReads.
  rewrite Hv1, Hv2; cbn.
  destruct (readContract w (getAddress viem tokenAddress) Server.balanceAbi "balanceOf"
                         [ArgAddress (getAddress viem address)]) as [b0 | eb |];
  destruct (readContract w (getAddress viem tokenAddress) Server.balanceAbi "name" [])
    as [n0 | en |];
  destruct (readContract w (getAddress viem tokenAddress) Server.balanceAbi "symbol" [])
    as [s0 | es |];
  destruct (readContract w (getAddress viem tokenAddress) Server.balanceAbi "decimals" [])
    as [d0 | ed |];
  cbn;
  try (destruct (formatUnits viem b0 d0) as [err | ok] eqn:Hf; cbn);
  try (destruct (formatUnits viem b0 18) as [err | ok] eqn:Hf; cbn);
  repeat split; try reflexivity; try discriminate;
    intros; try discriminate; congruence.
Qed.

Lemma erc20_balance_fails_only_on_balanceOf_witness :
  let w := Sample.token ["balanceOf"] (Resolved Sample.unverified) in
  (isAddress Sample.viem Sample.addr = true /\
   balanceOfB Sample.viem w Sample.addr Sample.addr = Rejected "execution reverted") /\
  Async.outcome (Server.getErc20Balance Sample.viem w Sample.addr Sample.addr) =
    Resolved (FailedToRetrieve "execution reverted").
Proof.
  intros w. split; [split; reflexivity|].
  exact (proj1 (proj2 (proj2 (erc20_balance_fails_only_on_balanceOf
                                Sample.viem w Sample.addr Sample.addr eq_refl eq_refl)))
               "execution reverted" eq_refl).
Defined.

(* ================================================================== *)
(** ** Gas estimates *)

(** X10. While the base fee of the latest block is not above the gas
    price, the priority fee is not negative and the recommended price lies
    between the gas price and the gas price plus the priority fee; with a
    non-negative base fee it is at most one and a half times the gas price.
    A block without base fee counts as base fee zero. *)
Theorem recommended_price_bounds (gasPrice : Z) (baseFeePerGas : option Z) :
  (Tools.orZero baseFeePerGas <= gasPrice)%Z ->
  let e := Tools.gasEstimates gasPrice baseFeePerGas in
  (0 <= Tools.priorityFee e)%Z /\
  (Tools.priorityFee e + Tools.baseFee e = gasPrice)%Z /\
  (gasPrice <= Tools.recommendedGasPrice e <= gasPrice + Tools.priorityFee e)%Z /\
  ((0 <= Tools.orZero baseFeePerGas)%Z ->
   (2 * Tools.recommendedGasPrice e <= 3 * gasPrice)%Z) /\
  (baseFeePerGas = None ->
   Tools.recommendedGasPrice e = (gasPrice + Z.quot gasPrice 2)%Z).
Proof.
  intros Hle e; subst e; unfold Tools.gasEstimates;
    cbn [Tools.recommendedGasPrice Tools.priorityFee Tools.baseFee Tools.currentGasPrice].
  set (b := Tools.orZero baseFeePerGas) in *.
  assert (Hq : (0 <= Z.quot (gasPrice - b) 2 <= gasPrice - b)%Z).
  { rewrite Z.quot_div_nonneg by lia.
    split; [apply Z.div_pos; lia | apply Z.div_le_upper_bound; lia]. }
  assert (Hh : (2 * Z.quot (gasPrice - b) 2 <= gasPrice - b)%Z).
  { rewrite Z.quot_div_nonneg by lia. apply Z.mul_div_le; lia. }
  split; [lia|]. split; [lia|]. split; [lia|]. split; [intros; lia|].
  intros Hnone. subst b. subst baseFeePerGas. cbn [Tools.orZero]. rewrite Z.sub_0_r. reflexivity.
Qed.

Lemma recommended_price_bounds_witness :
  (Tools.orZero (Some 50) <= 52)%Z /\
  Tools.recommendedGasPrice (Tools.gasEstimates 52 (Some 50%Z)) = 53%Z /\
  (52 <= Tools.recommendedGasPrice (Tools.gasEstimates 52 (Some 50%Z)) <= 52 + 2)%Z.
Proof.
  assert (H : (Tools.orZero (Some 50) <= 52)%Z) by (cbn; lia).
  split; [exact H|]. split; [reflexivity|].
  exact (proj1 (proj2 (proj2 (recommended_price_bounds 52 (Some 50%Z) H)))).
Defined.

(** X11. The fee figures are not clamped: when the base fee of the latest
    block exceeds the gas price, the priority fee shown is negative, and
    when it exceeds it by two or more the recommended price is below the
    current gas price. *)
Theorem base_fee_above_gas_price (gasPrice baseFeePerGas : Z) :
  (gasPrice < baseFeePerGas)%Z -> baseFeePerGas <> 0%Z ->
  let e := Tools.gasEstimates gasPrice (Some baseFeePerGas) in
  (Tools.priorityFee e < 0)%Z /\
  (Tools.recommendedGasPrice e <= gasPrice)%Z /\
  ((gasPrice + 2 <= baseFeePerGas)%Z -> (Tools.recommendedGasPrice e < gasPrice)%Z).
Proof.
  intros Hlt Hnz e; subst e; unfold Tools.gasEstimates, Tools.orZero;
    cbn [Tools.recommendedGasPrice Tools.priorityFee Tools.baseFee Tools.currentGasPrice].
  destruct (Z.eqb_spec baseFeePerGas 0) as [H0 | _]; [contradiction|].
  assert (Hq : Z.quot (gasPrice - baseFeePerGas) 2
               = (- ((baseFeePerGas - gasPrice) / 2))%Z).
  { replace (gasPrice - baseFeePerGas)%Z with (- (baseFeePerGas - gasPrice))%Z by lia.
    rewrite Z.quot_opp_l by lia. rewrite Z.quot_div_nonneg by lia. reflexivity. }
  rewrite Hq.
  assert (Hpos : (0 <= (baseFeePerGas - gasPrice) / 2)%Z) by (apply Z.div_pos; lia).
  repeat split; try lia.
  intros H2.
  assert (1 <= (baseFeePerGas - gasPrice) / 2)%Z
    by (apply Z.div_le_lower_bound; lia).
  lia.
Qed.

Lemma base_fee_above_gas_price_witness :
  ((50 < 55)%Z /\ 55%Z <> 0%Z) /\
  Tools.priorityFee (Tools.gasEstimates 50 (Some 55%Z)) = (-5)%Z /\
  (Tools.recommendedGasPrice (Tools.gasEstimates 50 (Some 55%Z)) < 50)%Z.
Proof.
  assert (H1 : (50 < 55)%Z) by lia.
  assert (H2 : 55%Z <> 0%Z) by lia.
  assert (H3 : (50 + 2 <= 55)%Z) by lia.
  split; [split; assumption|]. split; [reflexivity|].
  exact (proj2 (proj2 (base_fee_above_gas_price 50 55 H1 H2)) H3).
Defined.

(* ================================================================== *)
(** ** Conversions *)

(** X12. A [text] input is only ever hashed: for every target but
    [keccak256] the tool returns the input unchanged, whatever the
    conversions would make of it; the same holds from [string] to [number]
    and from [number] to [string]. *)
Theorem text_is_only_hashed (lib : Convert.Lib) (input : string) (to : Convert.To) :
  (to <> Convert.ToKeccak256 ->
   Convert.convert lib input Convert.FromText to
     = Convert.ConversionResult input Convert.FromText to input) /\
  Convert.convert lib input Convert.FromString Convert.ToNumber
    = Convert.ConversionResult input Convert.FromString Convert.ToNumber input /\
  Convert.convert lib input Convert.FromNumber Convert.ToString
    = Convert.ConversionResult input Convert.FromNumber Convert.ToString input.
Proof.
  split; [|split; reflexivity].
  destruct to; intros H; try reflexivity. contradiction.
Qed.

Lemma text_is_only_hashed_witness :
  Convert.ToHex <> Convert.ToKeccak256 /\
  Convert.convert Bench.lib "Hello Monad" Convert.FromText Convert.ToHex
    = Convert.ConversionResult "Hello Monad" Convert.FromText Convert.ToHex "Hello Monad".
Proof.
  assert (H : Convert.ToHex <> Convert.ToKeccak256) by discriminate.
  split; [exact H|].
  exact (proj1 (text_is_only_hashed Bench.lib "Hello Monad" Convert.ToHex) H).
Defined.

(** X13. To [keccak256], every source but [hex] hashes the text of the
    input: a [number] is hashed as the characters it was written with, so
    [string], [number] and [text] give the same digest, or the same
    failure, for the same input. *)
Theorem keccak_hashes_the_text
        (lib : Convert.Lib) (input : string) (from : Convert.From) :
  from <> Convert.FromHex ->
  Convert.result lib input from Convert.ToKeccak256
    = Convert.keccak256 lib (Convert.stringToHex lib input) /\
  Convert.result lib input from Convert.ToKeccak256
    = Convert.result lib input Convert.FromString Convert.ToKeccak256.
Proof.
  destruct from; intros H; try contradiction; split; reflexivity.
Qed.

Lemma keccak_hashes_the_text_witness :
  Convert.FromNumber <> Convert.FromHex /\
  Convert.result Bench.lib "12" Convert.FromNumber Convert.ToKeccak256
    = Convert.result Bench.lib "12" Convert.FromString Convert.ToKeccak256.
Proof.
  assert (H : Convert.FromNumber <> Convert.FromHex) by discriminate.
  split; [exact H|].
  exact (proj2 (keccak_hashes_the_text Bench.lib "12" Convert.FromNumber H)).
Defined.

(* ================================================================== *)
(** ** The tool list *)

Lemma includes_empty (s : string) : Frontend.includes s "" = true.
Proof. destruct s; reflexivity. Qed.

(** X15. Where lower-casing the empty string gives the empty string, the
    category [all] with an empty search shows every tool, in order.  For any
    category and search, a tool shown is also shown under [all] with the
    same search, and is of the selected category unless that is [all]. *)
Theorem tool_filter_narrows
        (toLowerCase : string -> string) (entries : list Frontend.Tool) :
  toLowerCase "" = "" ->
  Frontend.filterTools toLowerCase entries "all" "" = entries /\
  forall selectedCategory searchQuery tool,
    In tool (Frontend.filterTools toLowerCase entries selectedCategory searchQuery) ->
    In tool (Frontend.filterTools toLowerCase entries "all" searchQuery) /\
    (selectedCategory = "all" \/ Frontend.category tool = selectedCategory).
Proof.
  intros Hempty. split.
  - unfold Frontend.filterTools.
    induction entries as [| t rest IH]; [reflexivity|].
    cbn [filter]. unfold Frontend.matches at 1.
    rewrite Hempty, includes_empty. cbn. rewrite IH; reflexivity.
  - intros c q tool Hin.
    unfold Frontend.filterTools in *.
    apply filter_In in Hin. destruct Hin as [Hin Hm].
    unfold Frontend.matches in Hm. cbn zeta in Hm.
    apply andb_true_iff in Hm. destruct Hm as [Hcat Hsearch].
    split.
    + apply filter_In. split; [exact Hin|].
      unfold Frontend.matches; cbn zeta. rewrite Hsearch. reflexivity.
    + apply orb_true_iff in Hcat. destruct Hcat as [H | H].
      * left. apply String.eqb_eq in H; exact H.
      * right. apply String.eqb_eq in H; exact H.
Qed.

Lemma tool_filter_narrows_witness :
  Bench.toLowerCase "" = "" /\
  Frontend.filteredTools Bench.toLowerCase "all" "" = Frontend.tools.
Proof.
  split; [reflexivity|].
  exact (proj1 (tool_filter_narrows Bench.toLowerCase Frontend.tools eq_refl)).
Defined.

(* ================================================================== *)
(** ** The fungible section *)

(** X16. When the four functions of the fungible candidate all succeed for
    a contract and [formatUnits] returns on the supply and the decimals
    read, the report carries the fungible section with the values read and
    the formatted supply, whatever the non-fungible functions answer, and
    the interface declaration is never read. *)
Theorem fungible_candidate_wins
        (viem : Viem) (w : World) (a : string) (bytecode : option string) (code : string)
        (wei : Z) (n s : string) (d t : Z) (formatted : string) :
  isAddress viem a = true -> registrySettles w a = true ->
  getBytecode w (target viem a) = Resolved bytecode ->
  Server.deployedCode bytecode = Some code ->
  getBalance w (target viem a) = Resolved wei ->
  name20 viem w a = Resolved n -> symbol20 viem w a = Resolved s ->
  decimals20 viem w a = Resolved d -> totalSupply20 viem w a = Resolved t ->
  formatUnits viem t d = inr formatted ->
  exists sourceCodeData,
    Async.outcome (Server.fetchSourceCode w a) = Resolved sourceCodeData /\
    Server.getContractSource viem w a =
      (Async.effects (Server.fetchSourceCode w a) ++ chainReads viem a ++ reads20 viem a,
       Resolved (Analysis
         (ContractInformation a (formatEther viem wei) (Server.sizeOf code)
            (Erc20Detected n s (Some d) (Some formatted))
            (Server.sourceSection sourceCodeData)))) /\
    existsb isSupportsInterface (Async.effects (Server.getContractSource viem w a)) = false.
Proof.
  intros Hv Hr Hb Hc Hw Hn Hs Hd Ht Hf.
  destruct (getContractSource_fungible_reads viem w a bytecode code wei n s d t
              Hv Hr Hb Hc Hw Hn Hs Hd Ht) as (scd & Hscd & Hrun & Hno).
  exists scd. split; [exact Hscd|]. split; [|exact Hno].
  rewrite Hrun. unfold Server.recordERC20. rewrite Hf. reflexivity.
Qed.

Lemma fungible_candidate_wins_witness :
  (erc721Satisfied Sample.viem Sample.hybridToken Sample.addr = true /\
   formatUnits Sample.viem 6 6 = inr "0") /\
  exists sourceCodeData,
    Async.outcome (Server.getContractSource Sample.viem Sample.hybridToken Sample.addr) =
      Resolved (Analysis
        (ContractInformation Sample.addr "0" (4 # 2)
           (Erc20Detected "Token" "Token" (Some 6%Z) (Some "0"))
           (SourceVerified sourceCodeData))).
Proof.
  split; [split; reflexivity|].
  destruct (fungible_candidate_wins Sample.viem Sample.hybridToken Sample.addr
              (Some "0x6080") "0x6080" 0 "Token" "Token" 6 6 "0"
              eq_refl eq_refl eq_refl eq_refl eq_refl eq_refl eq_refl eq_refl eq_refl
              eq_refl)
    as (scd & Hscd & Hrun & _).
  exists scd. rewrite Hrun. cbn in Hscd. inversion Hscd; subst. reflexivity.
Defined.
